(** * BackPropagation.py: the early-stopping controller of [test_mlp]

    A shallow embedding of the control logic of [src/BackPropagation.py]:
    the dataset truncation of [load_data], the label checks of
    [LogisticRegression.errors] and the training loop of [test_mlp] with its
    patience window and best-model bookkeeping.

    Python integers are [Z]; [//] and [%] are [Z.div] and [Z.modulo] (both
    round towards minus infinity, as Python does) guarded by the
    [ZeroDivisionError] Python raises on a zero divisor.  Floating-point
    values are kept abstract behind the interface [FloatOps]; the compiled
    Theano functions are parameters of the development, and a call of one
    is taken to return; building the model and compiling the functions may
    raise. *)

From Stdlib Require Import ZArith List Bool String Ascii Lia QArith.
Import ListNotations.
Local Open Scope Z_scope.

Set Implicit Arguments.

(** ** Python-level helpers *)

Inductive exn : Type :=
| ZeroDivisionError
| TypeError
| NotImplementedError
| OtherException (name : string).

(** Result of running a piece of Python code: a value or a raised exception. *)
Inductive outcome (A : Type) : Type :=
| Return (a : A)
| Raise (e : exn).

Arguments Return {A} a.
Arguments Raise {A} e.

Definition bind {A B : Type} (m : outcome A) (k : A -> outcome B) : outcome B :=
  match m with
  | Return a => k a
  | Raise e => Raise e
  end.

Notation "x <- m ;; k" := (bind m (fun x => k))
  (at level 61, m at next level, right associativity).

(** [a // b] *)
Definition py_floordiv (a b : Z) : outcome Z :=
  if b =? 0 then Raise ZeroDivisionError else Return (a / b).

(** [a % b] *)
Definition py_mod (a b : Z) : outcome Z :=
  if b =? 0 then Raise ZeroDivisionError else Return (a mod b).

(** [range(n)]: empty when [n <= 0]. *)
Definition py_range (n : Z) : list Z :=
  map Z.of_nat (seq 0 (Z.to_nat n)).

(** [l[0:num_ex]]: a negative bound counts from the end of the list. *)
Definition slice_to {A : Type} (num_ex : Z) (l : list A) : list A :=
  if 0 <=? num_ex then firstn (Z.to_nat num_ex) l
  else firstn (List.length l - Z.to_nat (- num_ex)) l.

(** ** Floating point

    The operations the controller applies to floats.  [f_lit q] is the float
    written as the decimal literal of value [q] (0.995, 0.); [np_mean] is
    [numpy.mean] of a Python list of floats. *)
Class FloatOps (F : Type) : Type := {
  f_lit : Q -> F;
  f_inf : F;
  f_lt : F -> F -> bool;
  f_mul : F -> F -> F;
  np_mean : list F -> F
}.

(** [<] on floats is a strict partial order (NaN is incomparable). *)
Class FloatOrder {F : Type} (ops : FloatOps F) : Prop := {
  f_lt_irrefl : forall a, f_lt a a = false;
  f_lt_trans : forall a b c, f_lt a b = true -> f_lt b c = true -> f_lt a c = true
}.

(** ** load_data (lines 183-231)

    [pickled] is the content of the dataset file: three (inputs, labels)
    pairs, the inputs a matrix with a row for each sample, the labels a
    vector.  Finding, fetching and unpickling the file is the matter of
    [Loader] below. *)
Section LoadData.
Variable X : Type.

Definition split : Type := (list X * list Z)%type.

Record pickled : Type := mkPickled {
  train_set : split;
  valid_set : split;
  test_set : split
}.

Definition default_num_ex : Z := 10000.

(** [shared_dataset(data_xy, borrow=True, num_ex=10000)]: the samples it
    keeps.  The conversions of lines 221-224 ([numpy.asarray] to [floatX],
    [T.cast] of the labels to [int32]) change the values of the samples
    kept, not their number or their order; they are left to the back end
    that computes on the split, and a split here holds the values of the
    file. *)
Definition shared_dataset (data_xy : split) (num_ex : Z) : split :=
  let (data_x, data_y) := data_xy in
  let data_x := slice_to num_ex data_x in
  let data_y := slice_to num_ex data_y in
  (data_x, data_y).

Record datasets : Type := mkDatasets {
  ds_train : split;
  ds_valid : split;
  ds_test : split
}.

Definition load_data (dataset : pickled) (num_examples : Z) : datasets :=
  let test := shared_dataset (test_set dataset) default_num_ex in
  let valid := shared_dataset (valid_set dataset) default_num_ex in
  let train := shared_dataset (train_set dataset) num_examples in
  mkDatasets train valid test.

(** [set_x.get_value(borrow=True).shape[0]] *)
Definition shape0 (s : split) : Z := Z.of_nat (List.length (fst s)).
End LoadData.

(** ** LogisticRegression.errors (lines 74-93)

    [errors] works on symbolic variables: it inspects the number of
    dimensions and the dtype name of [y] and builds the expression
    [T.mean(T.neq(y_prediction, y))]. *)
Module Errors.

Record variable : Type := mkVar {
  name : string;
  ndim : nat;
  dtype : string
}.

Inductive expr : Type :=
| Var (v : variable)
| T_neq (a b : expr)
| T_mean (a : expr).

(** [s.startswith(p)] *)
Fixpoint startswith (s p : string) : bool :=
  match p with
  | EmptyString => true
  | String c p' =>
      match s with
      | EmptyString => false
      | String d s' => Ascii.eqb c d && startswith s' p'
      end
  end.

Definition errors (y_prediction y : variable) : outcome expr :=
  if negb (Nat.eqb (ndim y) (ndim y_prediction)) then Raise TypeError
  else if startswith (dtype y) "int" then
    Return (T_mean (T_neq (Var y_prediction) (Var y)))
  else Raise NotImplementedError.

(** Values of expressions over integer vectors, for a binding [rho] of the
    variables.  [T.neq] yields the vector of 0s and 1s, 1 where the entries
    differ, and is undefined on vectors of different lengths; [T.mean]
    averages the entries as floats. *)
Inductive value (F : Type) : Type :=
| Vec (l : list Z)
| Scalar (x : F).
Arguments Vec {F} l.
Arguments Scalar {F} x.

Fixpoint neq_vec (a b : list Z) : option (list Z) :=
  match a, b with
  | [], [] => Some []
  | x :: a', y :: b' =>
      match neq_vec a' b' with
      | Some r => Some ((if x =? y then 0 else 1) :: r)
      | None => None
      end
  | _, _ => None
  end.

Fixpoint eval {F : Type} `{FloatOps F} (rho : variable -> list Z) (e : expr)
  : option (value F) :=
  match e with
  | Var v => Some (Vec (rho v))
  | T_neq a b =>
      match eval rho a, eval rho b with
      | Some (Vec la), Some (Vec lb) =>
          match neq_vec la lb with
          | Some r => Some (Vec r)
          | None => None
          end
      | _, _ => None
      end
  | T_mean a =>
      match eval rho a with
      | Some (Vec l) => Some (Scalar (np_mean (map (fun z => f_lit (inject_Z z)) l)))
      | _ => None
      end
  end.

(** The zero-one losses of a minibatch: 1 for a wrong prediction. *)
Definition zero_one (prediction label : Z) : Z :=
  if prediction =? label then 0 else 1.

Definition zero_one_losses (predictions labels : list Z) : list Z :=
  map (fun pl => zero_one (fst pl) (snd pl)) (combine predictions labels).

End Errors.

(** ** The training loop of test_mlp (lines 311-367) *)

(** The locals of [test_mlp] that the loop reads and never assigns: the three
    compiled Theano functions, the batch counts and the epoch budget.
    [train_model] returns the minibatch cost and the updated parameters (the
    shared variables it updates in place); [validate_model] and [test_model]
    read the current parameters. *)
Record env (F P : Type) : Type := mkEnv {
  train_model : P -> Z -> F * P;
  validate_model : P -> Z -> F;
  test_model : P -> Z -> F;
  num_train_batches : Z;
  num_valid_batches : Z;
  num_test_batches : Z;
  num_epochs : Z
}.

(** What the loop does with the model, in order of occurrence, newest
    first: a call of [train_model] (line 333), a pass over the validation
    batches (lines 339-343) and a pass over the test batches (lines
    354-358), each with the iteration at which it happens. *)
Inductive event (F : Type) : Type :=
| Trained (iteration : Z)
| Validated (iteration : Z) (this_validation_loss : F)
| Tested (iteration : Z) (test_score : F).

Arguments Trained {F} iteration.
Arguments Validated {F} iteration this_validation_loss.
Arguments Tested {F} iteration test_score.

(** The locals the loop assigns, the parameters held by the shared
    variables, and the record of events.  [iteration] is unbound ([None])
    until the first minibatch. *)
Record loop_state (F P : Type) : Type := mkState {
  params : P;
  epoch : Z;
  done_looping : bool;
  iteration : option Z;
  patience : Z;
  best_validation_loss : F;
  best_iteration : Z;
  test_score : F;
  trace : list (event F)
}.

Inductive ctl : Type := Continue | Break.

Section Loop.
Context {F P : Type} `{FloatOps F}.

(** Early-stopping constants (lines 316-318). *)
Definition initial_patience : Z := 100.
Definition patience_increase : Z := 2.
Definition improvement_threshold : F := f_lit (995 # 1000).

(** Line 319: [min(num_train_batches, patience // 2)], with [patience]
    still at its initial value. *)
Definition validation_frequency (c : env F P) : Z :=
  Z.min (num_train_batches c) (initial_patience / 2).

(** Lines 316-327, for the initial parameters [p0]. *)
Definition initial_state (p0 : P) : loop_state F P :=
  {| params := p0;
     epoch := 0;
     done_looping := false;
     iteration := None;
     patience := initial_patience;
     best_validation_loss := f_inf;
     best_iteration := 0;
     test_score := f_lit 0;
     trace := [] |}.

(** Lines 333-335: the update step and the iteration number. *)
Definition train_step (c : env F P) (st : loop_state F P) (minibatch_index : Z)
  : loop_state F P * Z :=
  let (minibatch_average_cost, p) := train_model c (params st) minibatch_index in
  let iteration := (epoch st - 1) * num_train_batches c + minibatch_index in
  ({| params := p;
      epoch := epoch st;
      done_looping := done_looping st;
      iteration := Some iteration;
      patience := patience st;
      best_validation_loss := best_validation_loss st;
      best_iteration := best_iteration st;
      test_score := test_score st;
      trace := Trained iteration :: trace st |}, iteration).

(** Lines 339-340. *)
Definition validation_loss (c : env F P) (p : P) : F :=
  let validation_losses := map (validate_model c p) (py_range (num_valid_batches c)) in
  np_mean validation_losses.

(** Lines 354-355. *)
Definition test_loss (c : env F P) (p : P) : F :=
  let test_losses := map (test_model c p) (py_range (num_test_batches c)) in
  np_mean test_losses.

(** Line 346. *)
Definition improves (this_validation_loss best : F) : bool :=
  f_lt this_validation_loss best.

(** Line 348. *)
Definition significant (this_validation_loss best : F) : bool :=
  f_lt this_validation_loss (f_mul best improvement_threshold).

(** Lines 339-358: the body of [if (iteration + 1) % validation_frequency == 0]. *)
Definition validation_check (c : env F P) (st : loop_state F P) (it : Z)
  : loop_state F P :=
  let this_validation_loss := validation_loss c (params st) in
  if improves this_validation_loss (best_validation_loss st) then
    let patience' :=
      if significant this_validation_loss (best_validation_loss st)
      then Z.max (patience st) (it * patience_increase)
      else patience st in
    let test_score' := test_loss c (params st) in
    {| params := params st;
       epoch := epoch st;
       done_looping := done_looping st;
       iteration := iteration st;
       patience := patience';
       best_validation_loss := this_validation_loss;
       best_iteration := it;
       test_score := test_score';
       trace := Tested it test_score'
                  :: Validated it this_validation_loss :: trace st |}
  else
    {| params := params st;
       epoch := epoch st;
       done_looping := done_looping st;
       iteration := iteration st;
       patience := patience st;
       best_validation_loss := best_validation_loss st;
       best_iteration := best_iteration st;
       test_score := test_score st;
       trace := Validated it this_validation_loss :: trace st |}.

(** Line 360. *)
Definition set_done (st : loop_state F P) : loop_state F P :=
  {| params := params st;
     epoch := epoch st;
     done_looping := true;
     iteration := iteration st;
     patience := patience st;
     best_validation_loss := best_validation_loss st;
     best_iteration := best_iteration st;
     test_score := test_score st;
     trace := trace st |}.

(** Lines 333-361: the body of the [for] loop. *)
Definition minibatch_step (c : env F P) (st : loop_state F P) (minibatch_index : Z)
  : outcome (loop_state F P * ctl) :=
  let (st1, iteration) := train_step c st minibatch_index in
  r <- py_mod (iteration + 1) (validation_frequency c) ;;
  let st2 := if r =? 0 then validation_check c st1 iteration else st1 in
  if patience st2 <=? iteration
  then Return (set_done st2, Break)
  else Return (st2, Continue).

(** Line 331: [for minibatch_index in range(num_train_batches)], given the
    indices still to visit. *)
Fixpoint for_minibatches (c : env F P) (indices : list Z) (st : loop_state F P)
  : outcome (loop_state F P) :=
  match indices with
  | [] => Return st
  | minibatch_index :: rest =>
      match minibatch_step c st minibatch_index with
      | Raise e => Raise e
      | Return (st', Break) => Return st'
      | Return (st', Continue) => for_minibatches c rest st'
      end
  end.

(** Line 330. *)
Definition next_epoch (st : loop_state F P) : loop_state F P :=
  {| params := params st;
     epoch := epoch st + 1;
     done_looping := done_looping st;
     iteration := iteration st;
     patience := patience st;
     best_validation_loss := best_validation_loss st;
     best_iteration := best_iteration st;
     test_score := test_score st;
     trace := trace st |}.

(** Line 329. *)
Definition loop_condition (c : env F P) (st : loop_state F P) : bool :=
  (epoch st <? num_epochs c) && negb (done_looping st).

(** Lines 329-361: the [while] loop.  [None] when [fuel] passes of the
    loop body were not enough to leave the loop. *)
Fixpoint while_loop (c : env F P) (fuel : nat) (st : loop_state F P)
  : option (outcome (loop_state F P)) :=
  if loop_condition c st then
    match fuel with
    | O => None
    | S fuel' =>
        match for_minibatches c (py_range (num_train_batches c)) (next_epoch st) with
        | Raise e => Some (Raise e)
        | Return st' => while_loop c fuel' st'
        end
    end
  else Some (Return st).
End Loop.

(** ** test_mlp (lines 234-367) *)
Section TestMLP.
Context {F P X : Type} `{FloatOps F}.

(** The numerical back end.  [new_MLP seed num_inputs num_hidden
    num_outputs] is what NumPy and Theano do in
    [MLP(RandomState(seed), x, num_inputs, num_hidden, num_outputs)]: the
    initial parameters, or the exception they raise (a negative size, for
    one).  [compile] is what they do in lines 276-309, where the cost and its
    gradients are built and the three functions compiled: nothing, or an
    exception (a batch size that is no 64-bit integer, for one); the file
    holds a matrix of samples and a vector of labels for each split, so
    that the types of the shared variables, and with them this outcome, are
    the same for all files.  [sgd] is the function compiled for
    [train_model] from the learning rate, the two regularisation weights,
    the training split and the batch size; [batch_errors] the one compiled
    for [classifier.errors(y)] on batch [index] of a split (used for
    [validate_model] and for [test_model]); a call of a compiled function
    is taken to return.  [default_timer k] is what the [k]-th reading of
    [timeit.default_timer()] gives. *)
Record backend : Type := mkBackend {
  new_MLP : Z -> Z -> Z -> Z -> outcome P;
  compile : F -> F -> F -> Z -> P -> outcome unit;
  sgd : F -> F -> F -> split X -> Z -> P -> Z -> F * P;
  batch_errors : split X -> Z -> P -> Z -> F;
  default_timer : nat -> F
}.

Record arguments : Type := mkArgs {
  learning_rate : F;
  L1_reg : F;
  L2_reg : F;
  arg_num_epochs : Z;
  dataset : pickled X;
  batch_size : Z;
  num_hidden : Z;
  num_examples : Z
}.

(** HiddenLayer.__init__, lines 115-119: the bounds of the initial weights
    are [sqrt(6. / (num_inputs + num_outputs))] and its opposite, a float
    division that fails when the sum is 0. *)
Definition weight_bound (num_inputs num_outputs : Z) : outcome unit :=
  if num_inputs + num_outputs =? 0 then Raise ZeroDivisionError else Return tt.

(** MLP.__init__ (lines 142-180), whose hidden layer takes [num_inputs]
    inputs and gives [num_hidden] outputs. *)
Definition MLP_init (b : backend) (seed num_inputs num_hidden num_outputs : Z)
  : outcome P :=
  bound <- weight_bound num_inputs num_hidden ;;
  new_MLP b seed num_inputs num_hidden num_outputs.

(** Lines 248-309: the batch counts, the model and the compiled
    functions. *)
Definition build (b : backend) (a : arguments) : outcome (env F P * P) :=
  let datasets := load_data (dataset a) (num_examples a) in
  let train := ds_train datasets in
  let valid := ds_valid datasets in
  let test := ds_test datasets in
  n_train <- py_floordiv (shape0 train) (batch_size a) ;;
  n_valid <- py_floordiv (shape0 valid) (batch_size a) ;;
  n_test <- py_floordiv (shape0 test) (batch_size a) ;;
  classifier <- MLP_init b 1234 (28 * 28) (num_hidden a) 10 ;;
  compiled <- compile b (learning_rate a) (L1_reg a) (L2_reg a) (batch_size a) classifier ;;
  Return
    ({| train_model := sgd b (learning_rate a) (L1_reg a) (L2_reg a) train (batch_size a);
        validate_model := batch_errors b valid (batch_size a);
        test_model := batch_errors b test (batch_size a);
        num_train_batches := n_train;
        num_valid_batches := n_valid;
        num_test_batches := n_test;
        num_epochs := arg_num_epochs a |}, classifier).

(** The locals of [test_mlp] when it returns. *)
Record locals : Type := mkLocals {
  start_time : F;
  end_time : F;
  final : loop_state F P
}.

Definition run (b : backend) (a : arguments) (fuel : nat) : option (outcome locals) :=
  match build b a with
  | Raise e => Some (Raise e)
  | Return (c, classifier) =>
      let start_time := default_timer b 0 in
      match while_loop c fuel (initial_state classifier) with
      | None => None
      | Some (Raise e) => Some (Raise e)
      | Some (Return st) =>
          let end_time := default_timer b 1 in
          Some (Return (mkLocals start_time end_time st))
      end
  end.

(** Line 367: [return best_validation_loss, test_score]. *)
Definition test_mlp (b : backend) (a : arguments) (fuel : nat) : option (outcome (F * F)) :=
  match run b a fuel with
  | None => None
  | Some (Raise e) => Some (Raise e)
  | Some (Return l) =>
      Some (Return (best_validation_loss (final l), test_score (final l)))
  end.
End TestMLP.

(** ** Runs as sequences of steps

    [reaches c st st'] when the loop can get from [st] to [st'] by running
    minibatch steps and starting epochs; every state a run of the loop goes
    through is reached from the state the run starts in. *)
Inductive reaches {F P : Type} `{FloatOps F} (c : env F P)
  : loop_state F P -> loop_state F P -> Prop :=
| reaches_refl : forall st, reaches c st st
| reaches_step : forall st minibatch_index st1 k st2,
    minibatch_step c st minibatch_index = Return (st1, k) ->
    reaches c st1 st2 -> reaches c st st2
| reaches_epoch : forall st st2,
    reaches c (next_epoch st) st2 -> reaches c st st2.

(** The iteration number of the last minibatch processed, -1 before the
    first one. *)
Definition last_iteration {F P : Type} (st : loop_state F P) : Z :=
  match iteration st with
  | Some i => i
  | None => -1
  end.

(** The iterations at which [train_model] was called, newest first. *)
Fixpoint trained_iterations {F : Type} (tr : list (event F)) : list Z :=
  match tr with
  | [] => []
  | Trained i :: tr' => i :: trained_iterations tr'
  | _ :: tr' => trained_iterations tr'
  end.

(** The test passes, newest first. *)
Fixpoint test_passes {F : Type} (tr : list (event F)) : list (Z * F) :=
  match tr with
  | [] => []
  | Tested i s :: tr' => (i, s) :: test_passes tr'
  | _ :: tr' => test_passes tr'
  end.

(** The validation passes, newest first. *)
Fixpoint validation_passes {F : Type} (tr : list (event F)) : list (Z * F) :=
  match tr with
  | [] => []
  | Validated i s :: tr' => (i, s) :: validation_passes tr'
  | _ :: tr' => validation_passes tr'
  end.


(** The loop has stopped early: line 360 ran at the last iteration. *)
Definition stopped_early {F P : Type} (st : loop_state F P) : Prop :=
  done_looping st = true /\ iteration st = Some (patience st).

(** The loop is between two epochs, the patience not yet used up. *)
Definition between_epochs {F P : Type} (c : env F P) (st : loop_state F P) : Prop :=
  done_looping st = false /\
  last_iteration st = epoch st * num_train_batches c - 1 /\
  last_iteration st < patience st.

(** The state after lines 333-358 of a minibatch step, before the patience
    test of line 359. *)
Definition before_patience_test {F P : Type} `{FloatOps F} (c : env F P)
    (st : loop_state F P) (minibatch_index : Z) : loop_state F P :=
  let st1 := fst (train_step c st minibatch_index) in
  let it := snd (train_step c st minibatch_index) in
  if (it + 1) mod validation_frequency c =? 0
  then validation_check c st1 it
  else st1.


(** The back end [b] with another clock. *)
Definition with_timer {F P X : Type} (b : @backend F P X) (timer : nat -> F)
  : @backend F P X :=
  {| new_MLP := new_MLP b;
     compile := compile b;
     sgd := sgd b;
     batch_errors := batch_errors b;
     default_timer := timer |}.

(** ** Properties of the states of a run *)

Section RunProperties.
Context {F P : Type} `{FloatOps F}.
Variable c : env F P.

(** What one minibatch step does to every local, in terms of the state
    before it. *)
Record step_spec (st : loop_state F P) (i : Z) (st' : loop_state F P) (k : ctl)
  : Prop := mkStepSpec {
  spec_params : params st' = snd (train_model c (params st) i);
  spec_epoch : epoch st' = epoch st;
  spec_iteration :
    iteration st' = Some ((epoch st - 1) * num_train_batches c + i);
  spec_patience :
    patience st' =
      let it := (epoch st - 1) * num_train_batches c + i in
      let this := validation_loss c (params st') in
      if ((it + 1) mod validation_frequency c =? 0)
         && improves this (best_validation_loss st)
         && significant this (best_validation_loss st)
      then Z.max (patience st) (it * patience_increase)
      else patience st;
  spec_best :
    best_validation_loss st' =
      let it := (epoch st - 1) * num_train_batches c + i in
      let this := validation_loss c (params st') in
      if ((it + 1) mod validation_frequency c =? 0)
         && improves this (best_validation_loss st)
      then this else best_validation_loss st;
  spec_best_iteration :
    best_iteration st' =
      let it := (epoch st - 1) * num_train_batches c + i in
      let this := validation_loss c (params st') in
      if ((it + 1) mod validation_frequency c =? 0)
         && improves this (best_validation_loss st)
      then it else best_iteration st;
  spec_test_score :
    test_score st' =
      let it := (epoch st - 1) * num_train_batches c + i in
      let this := validation_loss c (params st') in
      if ((it + 1) mod validation_frequency c =? 0)
         && improves this (best_validation_loss st)
      then test_loss c (params st') else test_score st;
  spec_trace :
    trace st' =
      let it := (epoch st - 1) * num_train_batches c + i in
      let this := validation_loss c (params st') in
      (if (it + 1) mod validation_frequency c =? 0
       then if improves this (best_validation_loss st)
            then [Tested it (test_loss c (params st')); Validated it this]
            else [Validated it this]
       else []) ++ Trained it :: trace st;
  spec_done :
    done_looping st' =
      if patience st' <=? (epoch st - 1) * num_train_batches c + i
      then true else done_looping st;
  spec_ctl :
    k = if patience st' <=? (epoch st - 1) * num_train_batches c + i
        then Break else Continue
}.

(** [b'] is [b] or below it. *)
Definition not_above (b' b : F) : Prop := b' = b \/ f_lt b' b = true.

(** The iterations with a validation pass are the trained iterations [j]
    with [(j + 1) % validation_frequency == 0]. *)
Definition validated_on_schedule (st : loop_state F P) : Prop :=
  forall j, In j (map fst (validation_passes (trace st))) <->
            In j (trained_iterations (trace st)) /\
            (j + 1) mod validation_frequency c = 0.

(** The iterations trained so far are 0, 1, ..., up to the last one, all in
    the epochs started so far; and a loop that has stopped has stopped
    within the current epoch. *)
Definition trained_in_order (st : loop_state F P) : Prop :=
  -1 <= last_iteration st /\
  trained_iterations (trace st) = rev (py_range (last_iteration st + 1)) /\
  last_iteration st < epoch st * num_train_batches c /\
  (done_looping st = true -> (epoch st - 1) * num_train_batches c <= last_iteration st).

Variable p0 : P.


(** The two states agree on everything but the test score and the test
    passes recorded. *)
Definition agree_but_test (st st' : loop_state F P) : Prop :=
  params st' = params st /\
  epoch st' = epoch st /\
  done_looping st' = done_looping st /\
  iteration st' = iteration st /\
  patience st' = patience st /\
  best_validation_loss st' = best_validation_loss st /\
  best_iteration st' = best_iteration st /\
  trained_iterations (trace st') = trained_iterations (trace st) /\
  validation_passes (trace st') = validation_passes (trace st).

(** Until a validation pass is made the best loss, the best iteration and
    the test score have their initial values. *)
Definition initial_until_checked (st : loop_state F P) : Prop :=
  validation_passes (trace st) = [] ->
  best_validation_loss st = f_inf /\
  best_iteration st = 0 /\
  test_score st = f_lit 0.

(** No check has improved on the initial best loss: every validation pass
    made has computed the mean of no loss, and the best loss, the best
    iteration and the test score have their initial values, no test pass
    having been made. *)
Definition never_improved (st : loop_state F P) : Prop :=
  (forall i l, In (i, l) (validation_passes (trace st)) -> l = np_mean []) /\
  best_validation_loss st = f_inf /\
  best_iteration st = 0 /\
  test_score st = f_lit 0 /\
  test_passes (trace st) = [].

(** The best loss is the initial [inf] or below it, and it is below it once
    a validation pass has found a loss below it. *)
Definition below_inf_once_checked (st : loop_state F P) : Prop :=
  (best_validation_loss st = f_inf \/ f_lt (best_validation_loss st) f_inf = true) /\
  (forall i l, In (i, l) (validation_passes (trace st)) ->
               f_lt l f_inf = true ->
               f_lt (best_validation_loss st) f_inf = true).

End RunProperties.

(** ** A model of the floats, for examples

    Rationals extended with the two infinities and NaN: the IEEE values
    without rounding.  [mean] of the empty list is NaN, as [numpy.mean([])]
    is. *)
Module ExtQ.

Inductive t : Type :=
| Num (q : Q)
| PosInf
| NegInf
| NaN.

Definition lt (a b : t) : bool :=
  match a, b with
  | Num x, Num y => match Qcompare x y with Lt => true | _ => false end
  | Num _, PosInf => true
  | NegInf, Num _ => true
  | NegInf, PosInf => true
  | _, _ => false
  end.

Definition neg (a : t) : t :=
  match a with
  | Num x => Num (Qred (- x))
  | PosInf => NegInf
  | NegInf => PosInf
  | NaN => NaN
  end.

(** An infinity times a number. *)
Definition scale_inf (inf : t) (x : Q) : t :=
  match Qcompare 0 x with
  | Lt => inf
  | Gt => neg inf
  | Eq => NaN
  end.

Definition mul (a b : t) : t :=
  match a, b with
  | NaN, _ | _, NaN => NaN
  | Num x, Num y => Num (Qred (x * y))
  | Num x, i => scale_inf i x
  | i, Num y => scale_inf i y
  | PosInf, PosInf | NegInf, NegInf => PosInf
  | PosInf, NegInf | NegInf, PosInf => NegInf
  end.

Definition add (a b : t) : t :=
  match a, b with
  | NaN, _ | _, NaN => NaN
  | Num x, Num y => Num (Qred (x + y))
  | PosInf, NegInf | NegInf, PosInf => NaN
  | PosInf, _ | _, PosInf => PosInf
  | NegInf, _ | _, NegInf => NegInf
  end.

Definition mean (l : list t) : t :=
  match l with
  | [] => NaN
  | _ :: _ =>
      match fold_left add l (Num 0) with
      | Num s => Num (Qred (s / inject_Z (Z.of_nat (List.length l))))
      | other => other
      end
  end.

#[global] Instance ops : FloatOps t :=
  {| f_lit := fun q => Num (Qred q);
     f_inf := PosInf;
     f_lt := lt;
     f_mul := mul;
     np_mean := mean |}.

(** A small back end over integer inputs.  The parameters are the number
    of updates applied so far; the model predicts the class
    [updates mod 2] for every input, and the error of a batch is the mean
    zero-one loss of that prediction on the labels of the batch. *)
Definition batch {A : Type} (l : list A) (batch_size index : Z) : list A :=
  firstn (Z.to_nat batch_size) (skipn (Z.to_nat (index * batch_size)) l).

Definition toy_errors (s : split Z) (batch_size : Z) (p : Z) (index : Z) : t :=
  mean (map (fun y => if y =? p mod 2 then Num 0 else Num 1)
          (batch (snd s) batch_size index)).

Definition toy : @backend t Z Z :=
  {| new_MLP := fun _ _ _ _ => Return 0;
     compile := fun _ _ _ _ _ => Return tt;
     sgd := fun _ _ _ _ _ p _ => (Num 0, p + 1);
     batch_errors := toy_errors;
     default_timer := fun k => Num (inject_Z (Z.of_nat k)) |}.

(** [n] samples, all of class [label]. *)
Definition samples (n : Z) (label : Z) : split Z :=
  (repeat 0 (Z.to_nat n), repeat label (Z.to_nat n)).

Definition toy_args (data : pickled Z) (epochs size examples : Z) : @arguments t Z :=
  {| learning_rate := Num (1 # 100);
     L1_reg := Num 0;
     L2_reg := Num (1 # 10000);
     arg_num_epochs := epochs;
     dataset := data;
     batch_size := size;
     num_hidden := 500;
     num_examples := examples |}.

(** A loop environment on its own, with as many batches as wanted: the
    validation error is [1 / (updates + 1)], the test error [1 / 2]. *)
Definition toy_env (n_train n_valid n_test epochs : Z) : env t Z :=
  {| train_model := fun p _ => (Num 0, p + 1);
     validate_model := fun p _ => Num (Qred (1 / inject_Z (p + 1)));
     test_model := fun _ _ => Num (1 # 2);
     num_train_batches := n_train;
     num_valid_batches := n_valid;
     num_test_batches := n_test;
     num_epochs := epochs |}.


(** Fifty training samples and ten validation and test samples, batches of
    20: two training batches, no validation batch and no test batch. *)
Definition no_validation_batch_args : @arguments t Z :=
  toy_args (mkPickled (samples 50 1) (samples 10 1) (samples 10 1)) 1 20 50.

End ExtQ.

(** ** Further properties of the states of a run *)

(** The best iteration is 0 as long as no iteration is made, and from 0 to
    the last iteration afterwards; and the patience lies between its
    initial value and twice the best iteration (or its initial value, if
    that is larger). *)
Definition patience_window {F P : Type} (st : loop_state F P) : Prop :=
  match iteration st with
  | None => best_iteration st = 0
  | Some i => 0 <= best_iteration st <= i
  end /\
  initial_patience <= patience st <= Z.max initial_patience (2 * best_iteration st).

(** No validation pass found a loss below the best one, the passes that
    found the best loss are not older than the best iteration, and the best
    loss is the one found at the best iteration, unless no check has
    improved on the initial value. *)
Definition earliest_minimum {F P : Type} `{FloatOps F} (st : loop_state F P) : Prop :=
  -1 <= last_iteration st /\
  0 <= best_iteration st <= Z.max 0 (last_iteration st) /\
  (forall j l,
     In (j, l) (validation_passes (trace st)) ->
     0 <= j <= last_iteration st /\
     f_lt l (best_validation_loss st) = false /\
     (l = best_validation_loss st -> best_iteration st <= j)) /\
  ((best_validation_loss st = f_inf /\ best_iteration st = 0 /\
    test_passes (trace st) = [])
   \/ In (best_iteration st, best_validation_loss st) (validation_passes (trace st))).

(** The arguments [a] for a dataset file with another test set. *)
Definition with_test_set {F X : Type} (a : @arguments F X) (test : split X)
  : @arguments F X :=
  {| learning_rate := learning_rate a;
     L1_reg := L1_reg a;
     L2_reg := L2_reg a;
     arg_num_epochs := arg_num_epochs a;
     dataset := mkPickled (train_set (dataset a)) (valid_set (dataset a)) test;
     batch_size := batch_size a;
     num_hidden := num_hidden a;
     num_examples := num_examples a |}.

(** The number of calls of [train_model] recorded in a trace. *)
Definition updates {F : Type} (tr : list (event F)) : Z :=
  Z.of_nat (List.length (trained_iterations tr)).

(** ** load_data: finding and fetching the dataset file (lines 193-214)

    The first half of [load_data] works on path names and on the file
    system.  Path names are strings; [os.path] is the POSIX one.  A file
    system maps the path names of its regular files to their contents.
    [urllib.request.urlretrieve] either fails, leaving the file system as
    it is, or stores what the URL serves under the file name it is given;
    [gzip.open] fails when there is no such file; decompressing and
    unpickling a file ([pickle.load], with its retry of line 214) is one
    partial function of its contents. *)
Module Loader.

(** [p[:i], p[i:]] for [i = p.rfind('/') + 1]. *)
Fixpoint cut (p : string) : string * string :=
  match p with
  | EmptyString => (EmptyString, EmptyString)
  | String ch p' =>
      let (head, tail) := cut p' in
      match head with
      | EmptyString =>
          if Ascii.eqb ch "/" then (String ch EmptyString, tail)
          else (EmptyString, String ch tail)
      | String _ _ => (String ch head, tail)
      end
  end.

(** [head == '/' * len(head)] *)
Fixpoint all_slashes (s : string) : bool :=
  match s with
  | EmptyString => true
  | String ch s' => Ascii.eqb ch "/" && all_slashes s'
  end.

(** [head.rstrip('/')] *)
Fixpoint rstrip_slashes (s : string) : string :=
  match s with
  | EmptyString => EmptyString
  | String ch s' =>
      match rstrip_slashes s' with
      | EmptyString => if Ascii.eqb ch "/" then EmptyString else String ch EmptyString
      | String c r => String ch (String c r)
      end
  end.

(** [os.path.split(p)] *)
Definition path_split (p : string) : string * string :=
  let (head, tail) := cut p in
  let head :=
    if negb (String.eqb head "") && negb (all_slashes head)
    then rstrip_slashes head
    else head in
  (head, tail).

(** [b.startswith('/')] *)
Definition starts_with_slash (b : string) : bool :=
  match b with
  | String ch _ => Ascii.eqb ch "/"
  | EmptyString => false
  end.

(** [path.endswith('/')] *)
Fixpoint ends_with_slash (path : string) : bool :=
  match path with
  | EmptyString => false
  | String ch EmptyString => Ascii.eqb ch "/"
  | String _ path' => ends_with_slash path'
  end.

(** One round of the loop of [os.path.join]. *)
Definition join_step (path b : string) : string :=
  if starts_with_slash b then b
  else if String.eqb path "" || ends_with_slash path then (path ++ b)%string
  else (path ++ "/" ++ b)%string.

(** [os.path.join(a, *p)] *)
Definition path_join (a : string) (p : list string) : string :=
  fold_left join_step p a.

Definition origin : string :=
  "http://www.iro.umontreal.ca/~lisa/deep/data/mnist/mnist.pkl.gz".

Inductive error : Type :=
| IOError (filename : string)
| DownloadError
| UnpicklingError.

Inductive result (A : Type) : Type :=
| Ok (a : A)
| Err (e : error).
Arguments Ok {A} a.
Arguments Err {A} e.

Section Load.
Variables X content : Type.

Definition filesystem : Type := string -> option content.

(** [os.path.isfile(path)] *)
Definition isfile (fs : filesystem) (path : string) : bool :=
  match fs path with
  | Some _ => true
  | None => false
  end.

(** [__file__], the path name of the script. *)
Variable script : string.
(** What a URL serves, [None] when the transfer fails. *)
Variable network : string -> option content.
(** Whether a file of that name can be created. *)
Variable can_write : filesystem -> string -> bool.
(** [gzip] and [pickle.load] on the contents of a file (lines 210-214). *)
Variable unpickle : content -> option (pickled X).

Definition write (fs : filesystem) (filename : string) (c : content) : filesystem :=
  fun path => if String.eqb path filename then Some c else fs path.

(** [urllib.request.urlretrieve(url, filename)] *)
Definition urlretrieve (fs : filesystem) (url filename : string) : result filesystem :=
  match network url with
  | None => Err DownloadError
  | Some c =>
      if can_write fs filename then Ok (write fs filename c)
      else Err (IOError filename)
  end.

(** Lines 194-199: the path name [dataset] stands for. *)
Definition resolve (fs : filesystem) (dataset : string) : string :=
  let (data_dir, data_file) := path_split dataset in
  if String.eqb data_dir "" && negb (isfile fs dataset) then
    let new_path := path_join (fst (path_split script)) [".."; "data"; dataset]%string in
    if isfile fs new_path || String.eqb data_file "mnist.pkl.gz"
    then new_path
    else dataset
  else dataset.

(** Lines 194-205: the file system and the path name after the download,
    if any, with the downloads made, as pairs of a URL and a file name. *)
Definition fetch (fs : filesystem) (dataset : string)
  : result (filesystem * string * list (string * string)) :=
  let data_file := snd (path_split dataset) in
  let dataset := resolve fs dataset in
  if negb (isfile fs dataset) && String.eqb data_file "mnist.pkl.gz" then
    match urlretrieve fs origin dataset with
    | Err e => Err e
    | Ok fs' => Ok (fs', dataset, [(origin, dataset)])
    end
  else Ok (fs, dataset, []).

(** Lines 210-214: [gzip.open(dataset, 'rb')] and [pickle.load]. *)
Definition read (fs : filesystem) (dataset : string) : result (pickled X) :=
  match fs dataset with
  | None => Err (IOError dataset)
  | Some c =>
      match unpickle c with
      | None => Err UnpicklingError
      | Some data => Ok data
      end
  end.

(** [load_data(dataset, num_examples)] on a file system: the file system
    it leaves and the splits it returns. *)
Definition load (fs : filesystem) (dataset : string) (num_examples : Z)
  : result (filesystem * datasets X) :=
  match fetch fs dataset with
  | Err e => Err e
  | Ok (fs', path, _) =>
      match read fs' path with
      | Err e => Err e
      | Ok data => Ok (fs', load_data data num_examples)
      end
  end.
End Load.
End Loader.

(** ** The sweeps of the script (lines 369-406)

    [main data trial fuel] is the script run on the dataset file [data]
    when the number entered is [trial]; it gives the figures shown, each
    with its abscissas and its two series.  [fuel] bounds the passes of the
    [while] loop of each call of [test_mlp]. *)
Section Main.
Context {F P X : Type} `{FloatOps F}.
Variable b : @backend F P X.

(** The defaults of [test_mlp] (line 234), for the dataset file [data]. *)
Definition default_arguments (data : pickled X) : @arguments F X :=
  {| learning_rate := f_lit (1 # 100);
     L1_reg := f_lit 0;
     L2_reg := f_lit (1 # 10000);
     arg_num_epochs := 1000;
     dataset := data;
     batch_size := 20;
     num_hidden := 500;
     num_examples := 50000 |}.


(** [test_mlp(num_epochs = 10, num_hidden = 100, num_examples = example)] *)
Definition example_arguments (data : pickled X) (example : Z) : @arguments F X :=
  let d := default_arguments data in
  {| learning_rate := learning_rate d;
     L1_reg := L1_reg d;
     L2_reg := L2_reg d;
     arg_num_epochs := 10;
     dataset := dataset d;
     batch_size := batch_size d;
     num_hidden := 100;
     num_examples := example |}.

Definition examples : list Z := [100; 500; 1000; 10000; 25000; 50000].




End Main.

(** ** test_mlp on a file system

    [test_mlp] begins by [load_data(dataset, num_examples)] (line 248),
    which looks for the file, fetches it if need be and reads it; the rest
    works on the splits it returns. *)
Section TestMLPFile.
Context {F P X content : Type} `{FloatOps F}.
Variable script : string.
Variable network : string -> option content.
Variable can_write : Loader.filesystem content -> string -> bool.
Variable unpickle : content -> option (pickled X).
Variable b : @backend F P X.

(** What ends a call: an error of loading the file, or an exception of the
    rest of [test_mlp]. *)
Inductive failure : Type :=
| LoadError (e : Loader.error)
| PyError (e : exn).

(** The arguments [a] for the file contents [data]. *)
Definition with_dataset (a : @arguments F X) (data : pickled X) : @arguments F X :=
  {| learning_rate := learning_rate a;
     L1_reg := L1_reg a;
     L2_reg := L2_reg a;
     arg_num_epochs := arg_num_epochs a;
     dataset := data;
     batch_size := batch_size a;
     num_hidden := num_hidden a;
     num_examples := num_examples a |}.

(** [test_mlp] with [dataset = path] and the other arguments of [a], on the
    file system [fs]: the file system it leaves, and how it ends. *)
Definition test_mlp_file (fs : Loader.filesystem content) (path : string)
    (a : @arguments F X) (fuel : nat)
  : option (Loader.filesystem content * (failure + F * F)) :=
  match Loader.fetch script network can_write fs path with
  | Loader.Err e => Some (fs, inl (LoadError e))
  | Loader.Ok (fs', path', _) =>
      match Loader.read unpickle fs' path' with
      | Loader.Err e => Some (fs', inl (LoadError e))
      | Loader.Ok data =>
          match test_mlp b (with_dataset a data) fuel with
          | None => None
          | Some (Raise e) => Some (fs', inl (PyError e))
          | Some (Return r) => Some (fs', inr r)
          end
      end
  end.
End TestMLPFile.

(** * Facts *)

(** ** Ranges and slices *)

Lemma py_range_nil (n : Z) : n <= 0 -> py_range n = [].
Proof.
  intros Hn. unfold py_range.
  replace (Z.to_nat n) with O by lia. reflexivity.
Qed.

Lemma py_range_succ (k : Z) : 0 <= k -> py_range (k + 1) = py_range k ++ [k].
Proof.
  intros Hk. unfold py_range.
  replace (Z.to_nat (k + 1)) with (S (Z.to_nat k)) by lia.
  rewrite seq_S, map_app. simpl.
  rewrite Z2Nat.id by assumption. reflexivity.
Qed.

Lemma py_range_length (n : Z) : List.length (py_range n) = Z.to_nat n.
Proof. unfold py_range. now rewrite length_map, length_seq. Qed.

Lemma slice_to_nonneg {A : Type} (n : Z) (l : list A) :
  0 <= n -> slice_to n l = firstn (Z.to_nat n) l.
Proof.
  intros Hn. unfold slice_to.
  destruct (0 <=? n) eqn:E; [reflexivity | lia].
Qed.

Lemma slice_to_length {A : Type} (n : Z) (l : list A) :
  0 <= n -> Z.of_nat (List.length (slice_to n l)) = Z.min n (Z.of_nat (List.length l)).
Proof.
  intros Hn. rewrite slice_to_nonneg by assumption.
  rewrite length_firstn. lia.
Qed.

(** ** One minibatch step *)

Section StepFacts.
Context {F P : Type} `{FloatOps F}.
Variable c : env F P.

Lemma train_step_iteration st i :
  snd (train_step c st i) = (epoch st - 1) * num_train_batches c + i.
Proof. unfold train_step. destruct (train_model c (params st) i). reflexivity. Qed.

Lemma minibatch_step_unfold st i :
  validation_frequency c <> 0 ->
  minibatch_step c st i =
    let st2 := before_patience_test c st i in
    if patience st2 <=? snd (train_step c st i)
    then Return (set_done st2, Break)
    else Return (st2, Continue).
Proof.
  intros Hvf. unfold minibatch_step, before_patience_test, py_mod.
  destruct (train_step c st i) as [st1 it]. simpl.
  destruct (validation_frequency c =? 0) eqn:E; [lia | reflexivity].
Qed.

Lemma minibatch_step_zero_frequency st i :
  validation_frequency c = 0 ->
  minibatch_step c st i = Raise ZeroDivisionError.
Proof.
  intros Hvf. unfold minibatch_step, py_mod.
  destruct (train_step c st i) as [st1 it]. rewrite Hvf. reflexivity.
Qed.

Lemma minibatch_step_returns st i st' k :
  minibatch_step c st i = Return (st', k) ->
  validation_frequency c <> 0.
Proof.
  intros Hs Hvf. rewrite minibatch_step_zero_frequency in Hs by assumption.
  discriminate.
Qed.
End StepFacts.

(** What one minibatch step does to every local, in terms of the state
    before it. *)
Section StepSpec.
Context {F P : Type} `{FloatOps F}.
Variable c : env F P.

Lemma minibatch_step_spec st i st' k :
  minibatch_step c st i = Return (st', k) -> step_spec c st i st' k.
Proof.
  intros Hs.
  pose proof (minibatch_step_returns _ _ _ Hs) as Hvf.
  rewrite minibatch_step_unfold in Hs by assumption.
  unfold before_patience_test, train_step, validation_check in Hs.
  destruct (train_model c (params st) i) as [cost p'] eqn:Etm.
  cbn [fst snd params epoch done_looping iteration patience
       best_validation_loss best_iteration test_score trace] in Hs.
  set (it := (epoch st - 1) * num_train_batches c + i) in *.
  destruct ((it + 1) mod validation_frequency c =? 0) eqn:Echk;
    [ destruct (improves (validation_loss c p') (best_validation_loss st)) eqn:Eimp;
      [ destruct (significant (validation_loss c p') (best_validation_loss st)) eqn:Esig | ]
    | ];
    cbn [fst snd params epoch done_looping iteration patience
         best_validation_loss best_iteration test_score trace] in Hs;
    match type of Hs with
    | (if ?b then _ else _) = _ => destruct b eqn:Epat
    end;
    injection Hs as <- <-;
    constructor;
    cbn [set_done fst snd params epoch done_looping iteration patience
         best_validation_loss best_iteration test_score trace];
    fold it; rewrite ?Etm; cbn [snd]; rewrite ?Echk, ?Eimp, ?Esig, ?Epat;
    cbn [andb app]; rewrite ?Epat; reflexivity.
Qed.

(** A step returns whenever the validation frequency is not 0. *)
Lemma minibatch_step_total st i :
  validation_frequency c <> 0 ->
  exists st' k, minibatch_step c st i = Return (st', k).
Proof.
  intros Hvf. rewrite minibatch_step_unfold by assumption.
  cbv zeta.
  destruct (patience (before_patience_test c st i) <=? snd (train_step c st i));
    eauto.
Qed.
End StepSpec.

(** ** The two loops *)

Section LoopInvariant.
Context {F P : Type} `{FloatOps F}.
Variable c : env F P.

Lemma validation_frequency_pos :
  1 <= num_train_batches c -> 1 <= validation_frequency c.
Proof.
  unfold validation_frequency, initial_patience. intros Hn.
  change (100 / 2) with 50. lia.
Qed.

Lemma step_patience_le st i st' k :
  step_spec c st i st' k -> patience st <= patience st'.
Proof.
  intros Sp. rewrite (spec_patience Sp). cbv zeta.
  match goal with |- _ <= (if ?b then _ else _) => destruct b end; lia.
Qed.

(** An invariant [I] of the minibatch steps that a run performs is
    carried through both loops.  A step of a run starts from a state with
    [done_looping] false, at an index of the range, one iteration after
    the last one and with the patience not used up. *)
Variable I : loop_state F P -> Prop.
Hypothesis Hn : 1 <= num_train_batches c.
Hypothesis I_epoch : forall st, I st -> between_epochs c st -> I (next_epoch st).
Hypothesis I_step : forall st i st' k,
  I st ->
  done_looping st = false ->
  0 <= i < num_train_batches c ->
  last_iteration st = (epoch st - 1) * num_train_batches c + i - 1 ->
  last_iteration st < patience st ->
  minibatch_step c st i = Return (st', k) ->
  I st'.

Lemma for_minibatches_inv (m : nat) : forall (k : nat) (st : loop_state F P),
  I st ->
  done_looping st = false ->
  Z.of_nat (k + m) <= num_train_batches c ->
  last_iteration st = (epoch st - 1) * num_train_batches c + Z.of_nat k - 1 ->
  last_iteration st < patience st ->
  exists st',
    for_minibatches c (map Z.of_nat (seq k m)) st = Return st' /\
    I st' /\
    epoch st' = epoch st /\
    ((stopped_early st' /\
      patience st' <= (epoch st - 1) * num_train_batches c + Z.of_nat (k + m) - 1)
     \/
     (done_looping st' = false /\
      last_iteration st' = (epoch st - 1) * num_train_batches c + Z.of_nat (k + m) - 1 /\
      last_iteration st' < patience st')).
Proof.
  induction m as [|m IH]; intros k st HI Hdone Hkm Hlast Hpat.
  - exists st. simpl. repeat split; try assumption.
    right. rewrite Nat.add_0_r. auto.
  - simpl.
    assert (Hvf : validation_frequency c <> 0)
      by (pose proof (validation_frequency_pos Hn); lia).
    destruct (minibatch_step_total c st (Z.of_nat k) Hvf) as (st1 & k1 & Hs).
    rewrite Hs.
    pose proof (minibatch_step_spec _ _ _ Hs) as Sp.
    assert (HI1 : I st1) by (eapply I_step; eauto; lia).
    pose proof (step_patience_le Sp) as Hle.
    pose proof (spec_done Sp) as Hd. pose proof (spec_ctl Sp) as Hk.
    pose proof (spec_iteration Sp) as Hit. pose proof (spec_epoch Sp) as He.
    destruct (patience st1 <=? (epoch st - 1) * num_train_batches c + Z.of_nat k) eqn:E.
    + subst k1. exists st1. repeat split; try assumption.
      left. split.
      * split; [assumption|]. rewrite Hit. f_equal. lia.
      * lia.
    + subst k1.
      destruct (IH (S k) st1) as (st2 & Hf & HI2 & He2 & Hfin);
        try assumption; try congruence.
      * lia.
      * unfold last_iteration. rewrite Hit, He. lia.
      * unfold last_iteration. rewrite Hit. lia.
      * exists st2. rewrite He in *. repeat split; try assumption.
        replace (Z.of_nat (k + S m)) with (Z.of_nat (S k + m)) by lia.
        exact Hfin.
Qed.

Lemma while_loop_inv (fuel : nat) : forall st : loop_state F P,
  I st ->
  between_epochs c st ->
  (Z.to_nat (num_epochs c - epoch st) <= fuel)%nat ->
  exists st',
    while_loop c fuel st = Some (Return st') /\
    I st' /\
    ((stopped_early st' /\ epoch st < epoch st' <= num_epochs c)
     \/
     (between_epochs c st' /\ num_epochs c <= epoch st' /\
      (epoch st < num_epochs c -> epoch st' = num_epochs c) /\
      (num_epochs c <= epoch st -> st' = st))).
Proof.
  induction fuel as [|fuel IH]; intros st HI Hb Hfuel;
    pose proof Hb as (Hdone & Hlast & Hpat).
  - exists st. simpl. unfold loop_condition.
    destruct (epoch st <? num_epochs c) eqn:E; [lia|]. simpl.
    repeat split; try assumption. right. repeat split; try assumption; lia.
  - simpl. unfold loop_condition. rewrite Hdone.
    destruct (epoch st <? num_epochs c) eqn:E; simpl.
    + destruct (@for_minibatches_inv (Z.to_nat (num_train_batches c)) O (next_epoch st))
        as (st1 & Hf & HI1 & He1 & Hfin); simpl; try assumption.
      * auto.
      * lia.
      * unfold last_iteration in *. simpl. lia.
      * unfold py_range. rewrite Hf.
        simpl in He1.
        destruct Hfin as [[Hstop Hle] | (Hd1 & Hl1 & Hp1)].
        -- exists st1. destruct Hstop as [Hd1 Hi1].
           destruct fuel; simpl; unfold loop_condition; rewrite Hd1, andb_false_r;
             (repeat split; try assumption); left; (repeat split; try assumption); lia.
        -- destruct (IH st1) as (st2 & Hw & HI2 & Hfin2); try assumption.
           ++ repeat split; try assumption. simpl in Hl1. lia.
           ++ lia.
           ++ exists st2. repeat split; try assumption.
              destruct Hfin2 as [[Hs2 He2] | (Hb2 & He2 & He2' & He2'')].
              ** left. split; [assumption | lia].
              ** right. apply Z.ltb_lt in E.
                 split; [assumption|]. split; [assumption|]. split; [|lia].
                 intros _.
                 destruct (Z.eq_dec (epoch st1) (num_epochs c)) as [Heq|Hne].
                 --- rewrite He2'' by lia. lia.
                 --- apply He2'. lia.
    + exists st. repeat split; try assumption.
      right. repeat split; try assumption; lia.
Qed.
End LoopInvariant.

(** ** Runs are made of steps *)

Section Reaches.
Context {F P : Type} `{FloatOps F}.
Variable c : env F P.

Lemma reaches_trans st1 st2 st3 :
  reaches c st1 st2 -> reaches c st2 st3 -> reaches c st1 st3.
Proof.
  induction 1; intros H3; [assumption | | ].
  - eapply reaches_step; eauto.
  - apply reaches_epoch; auto.
Qed.

Lemma for_minibatches_reaches (indices : list Z) : forall st st',
  for_minibatches c indices st = Return st' -> reaches c st st'.
Proof.
  induction indices as [|i rest IH]; intros st st' Hf; simpl in Hf.
  - injection Hf as <-. apply reaches_refl.
  - destruct (minibatch_step c st i) as [[st1 [|]]|e] eqn:Hs; try discriminate.
    + eapply reaches_step; [exact Hs|]. apply IH. assumption.
    + injection Hf as <-. eapply reaches_step; [exact Hs|]. apply reaches_refl.
Qed.

Lemma while_loop_reaches (fuel : nat) : forall st st',
  while_loop c fuel st = Some (Return st') -> reaches c st st'.
Proof.
  induction fuel as [|fuel IH]; intros st st' Hw; simpl in Hw;
    destruct (loop_condition c st); try discriminate;
    try (injection Hw as <-; apply reaches_refl).
  destruct (for_minibatches c (py_range (num_train_batches c)) (next_epoch st))
    as [st1|e] eqn:Hf; try discriminate.
  apply reaches_epoch.
  eapply reaches_trans; [eapply for_minibatches_reaches; exact Hf|].
  apply IH. assumption.
Qed.

(** A property of the states that every step and every start of an epoch
    preserves relative to an earlier state holds along every run. *)
Lemma reaches_ind_rel (R : loop_state F P -> loop_state F P -> Prop) :
  (forall st, R st st) ->
  (forall st1 st2 st3, R st1 st2 -> R st2 st3 -> R st1 st3) ->
  (forall st i st' k, minibatch_step c st i = Return (st', k) -> R st st') ->
  (forall st, R st (next_epoch st)) ->
  forall st st', reaches c st st' -> R st st'.
Proof.
  intros Hrefl Htrans Hstep Hepoch st st' Hr.
  induction Hr as [st | st i st1 k st2 Hs _ IH | st st2 _ IH].
  - apply Hrefl.
  - eapply Htrans; [eapply Hstep; exact Hs | exact IH].
  - eapply Htrans; [apply Hepoch | exact IH].
Qed.

(** The result of the loop does not depend on the fuel, once there is
    enough of it. *)
Lemma while_loop_fuel (fuel1 : nat) : forall fuel2 st r1 r2,
  while_loop c fuel1 st = Some r1 ->
  while_loop c fuel2 st = Some r2 ->
  r1 = r2.
Proof.
  induction fuel1 as [|fuel1 IH]; intros fuel2 st r1 r2 H1 H2;
    destruct fuel2 as [|fuel2]; simpl in H1, H2;
    destruct (loop_condition c st); try discriminate; try congruence.
  destruct (for_minibatches c (py_range (num_train_batches c)) (next_epoch st))
    as [st1|e]; [eapply IH; eassumption | congruence].
Qed.

(** With no training batch the epochs are empty: the loop only counts
    them. *)
Lemma while_loop_no_batches (fuel : nat) : forall st,
  num_train_batches c <= 0 ->
  (Z.to_nat (num_epochs c - epoch st) <= fuel)%nat ->
  exists st',
    while_loop c fuel st = Some (Return st') /\
    params st' = params st /\
    iteration st' = iteration st /\
    patience st' = patience st /\
    best_validation_loss st' = best_validation_loss st /\
    best_iteration st' = best_iteration st /\
    test_score st' = test_score st /\
    trace st' = trace st /\
    done_looping st' = done_looping st.
Proof.
  intros st Hn. revert st.
  induction fuel as [|fuel IH]; intros st Hfuel; simpl;
    unfold loop_condition;
    destruct (epoch st <? num_epochs c) eqn:E;
    try apply Z.ltb_lt in E; try lia;
    destruct (done_looping st) eqn:Hd; simpl;
    try (exists st; rewrite ?Hd; repeat split; reflexivity).
  rewrite py_range_nil by assumption. simpl.
  destruct (IH (next_epoch st)) as (st' & Hw & Hr); [simpl; lia|].
  exists st'. split; [exact Hw|]. simpl in Hr. rewrite Hd in Hr. exact Hr.
Qed.
End Reaches.

(** ** The model of the floats is ordered as floats are *)

Lemma ExtQ_lt_irrefl (a : ExtQ.t) : ExtQ.lt a a = false.
Proof.
  destruct a as [q| | |]; simpl; try reflexivity.
  now rewrite (proj1 (Qeq_alt q q) (Qeq_refl q)).
Qed.

Lemma ExtQ_lt_trans (a b c : ExtQ.t) :
  ExtQ.lt a b = true -> ExtQ.lt b c = true -> ExtQ.lt a c = true.
Proof.
  destruct a as [x| | |], b as [y| | |], c as [z| | |]; simpl;
    try discriminate; try reflexivity.
  destruct (x ?= y)%Q eqn:Exy; try discriminate.
  destruct (y ?= z)%Q eqn:Eyz; try discriminate.
  intros _ _.
  apply Qlt_alt in Exy, Eyz.
  now rewrite (proj1 (Qlt_alt x z) (Qlt_trans _ _ _ Exy Eyz)).
Qed.

#[global] Instance ExtQ_order : FloatOrder ExtQ.ops.
Proof. split; [exact ExtQ_lt_irrefl | exact ExtQ_lt_trans]. Qed.

(** ** Patience *)

Section Patience.
Context {F P : Type} `{FloatOps F}.
Variable c : env F P.

Lemma reaches_patience st st' : reaches c st st' -> patience st <= patience st'.
Proof.
  apply (reaches_ind_rel (fun a b => patience a <= patience b)).
  - intros; lia.
  - intros; lia.
  - intros s i s' k Hs. eapply step_patience_le, minibatch_step_spec, Hs.
  - intros; simpl; lia.
Qed.

Lemma step_patience_changes st i st' k :
  minibatch_step c st i = Return (st', k) ->
  patience st' <> patience st ->
  ((epoch st - 1) * num_train_batches c + i + 1) mod validation_frequency c = 0 /\
  improves (validation_loss c (params st')) (best_validation_loss st) = true /\
  significant (validation_loss c (params st')) (best_validation_loss st) = true /\
  patience st' =
    Z.max (patience st) (((epoch st - 1) * num_train_batches c + i) * patience_increase).
Proof.
  intros Hs Hne. pose proof (minibatch_step_spec _ _ _ Hs) as Sp.
  pose proof (spec_patience Sp) as Hp. cbv zeta in Hp.
  destruct (((epoch st - 1) * num_train_batches c + i + 1) mod validation_frequency c =? 0)
    eqn:E1; [|simpl in Hp; congruence].
  destruct (improves (validation_loss c (params st')) (best_validation_loss st))
    eqn:E2; [|simpl in Hp; congruence].
  destruct (significant (validation_loss c (params st')) (best_validation_loss st))
    eqn:E3; [|simpl in Hp; congruence].
  simpl in Hp. apply Z.eqb_eq in E1. auto.
Qed.

Lemma step_patience_significant st i st' k :
  minibatch_step c st i = Return (st', k) ->
  ((epoch st - 1) * num_train_batches c + i + 1) mod validation_frequency c = 0 ->
  improves (validation_loss c (params st')) (best_validation_loss st) = true ->
  significant (validation_loss c (params st')) (best_validation_loss st) = true ->
  patience st' =
    Z.max (patience st) (((epoch st - 1) * num_train_batches c + i) * patience_increase).
Proof.
  intros Hs E1 E2 E3. pose proof (minibatch_step_spec _ _ _ Hs) as Sp.
  rewrite (spec_patience Sp). cbv zeta.
  apply Z.eqb_eq in E1. rewrite E1, E2, E3. reflexivity.
Qed.

Lemma validation_check_patience st it :
  improves (validation_loss c (params st)) (best_validation_loss st) = true ->
  significant (validation_loss c (params st)) (best_validation_loss st) = true ->
  patience (validation_check c st it) = Z.max (patience st) (it * patience_increase).
Proof. intros E2 E3. unfold validation_check. rewrite E2, E3. reflexivity. Qed.
End Patience.

(** C3. Patience never decreases.  Along every run of the loop (between any
    two states the loop goes through, and from the start of the [while] loop
    to its end) the patience can only grow.  A minibatch step changes it
    only when its validation check finds the validation loss below
    [best_validation_loss * improvement_threshold] (inside the test that it
    is below [best_validation_loss]), and then, as on every such check, the
    new value is [max(patience, iteration * patience_increase)]; starting an
    epoch leaves it alone.  With patience 100 and factor 2, such a check at
    iteration 40 leaves the patience at 100 and one at iteration 60 sets it
    to 120. *)
Theorem patience_non_decreasing {F P : Type} `{FloatOps F} (c : env F P) :
  (forall st st', reaches c st st' -> patience st <= patience st') /\
  (forall fuel st st',
     while_loop c fuel st = Some (Return st') -> patience st <= patience st') /\
  (forall st i st' k,
     minibatch_step c st i = Return (st', k) ->
     patience st' <> patience st ->
     ((epoch st - 1) * num_train_batches c + i + 1) mod validation_frequency c = 0 /\
     f_lt (validation_loss c (params st'))
          (f_mul (best_validation_loss st) improvement_threshold) = true /\
     patience st' =
       Z.max (patience st) (((epoch st - 1) * num_train_batches c + i) * patience_increase)) /\
  (forall st i st' k,
     minibatch_step c st i = Return (st', k) ->
     ((epoch st - 1) * num_train_batches c + i + 1) mod validation_frequency c = 0 ->
     f_lt (validation_loss c (params st')) (best_validation_loss st) = true ->
     f_lt (validation_loss c (params st'))
          (f_mul (best_validation_loss st) improvement_threshold) = true ->
     patience st' =
       Z.max (patience st) (((epoch st - 1) * num_train_batches c + i) * patience_increase)) /\
  (forall st : loop_state F P, patience (next_epoch st) = patience st) /\
  patience_increase = 2 /\
  (forall st : loop_state F P,
     patience st = 100 ->
     f_lt (validation_loss c (params st)) (best_validation_loss st) = true ->
     f_lt (validation_loss c (params st))
          (f_mul (best_validation_loss st) improvement_threshold) = true ->
     patience (validation_check c st 40) = 100 /\
     patience (validation_check c st 60) = 120).
Proof.
  repeat split.
  - apply reaches_patience.
  - intros fuel st st' Hw. eapply reaches_patience, while_loop_reaches, Hw.
  - eapply step_patience_changes; eassumption.
  - eapply step_patience_changes; eassumption.
  - eapply step_patience_changes; eassumption.
  - intros. eapply step_patience_significant; eassumption.
  - rewrite validation_check_patience by assumption.
    rewrite H0. reflexivity.
  - rewrite validation_check_patience by assumption.
    rewrite H0. reflexivity.
Qed.

(** The scenario of C3 on the example back end, and the patience over a whole
    run of three epochs of forty batches with a validation check at each
    step. *)
Lemma patience_non_decreasing_witness :
  (patience (validation_check (ExtQ.toy_env 1 1 1 1) (initial_state 0) 40) = 100 /\
   patience (validation_check (ExtQ.toy_env 1 1 1 1) (initial_state 0) 60) = 120) /\
  exists st',
    while_loop (ExtQ.toy_env 40 1 1 3) 3 (initial_state 0) = Some (Return st') /\
    patience (initial_state (F := ExtQ.t) 0) <= patience st'.
Proof.
  split.
  - apply (proj2 (proj2 (proj2 (proj2 (proj2 (proj2
             (patience_non_decreasing (ExtQ.toy_env 1 1 1 1)))))))
             (initial_state 0)); reflexivity.
  - eexists. split; [vm_compute; reflexivity|].
    apply (proj1 (proj2 (patience_non_decreasing (ExtQ.toy_env 40 1 1 3))) 3%nat).
    vm_compute. reflexivity.
Defined.

(** ** Best validation loss *)

Section Best.
Context {F P : Type} {ops : FloatOps F} {ord : FloatOrder ops}.
Variable c : env F P.

Lemma not_above_trans (x y z : F) : not_above x y -> not_above y z -> not_above x z.
Proof.
  intros [->|Hxy] [->|Hyz]; unfold not_above; auto.
  right. eapply f_lt_trans; eassumption.
Qed.

Lemma not_above_not_lt (b' b : F) : not_above b' b -> f_lt b b' = false.
Proof.
  intros [->|Hlt]; [apply f_lt_irrefl|].
  destruct (f_lt b b') eqn:E; [|reflexivity].
  pose proof (f_lt_trans _ _ _ Hlt E) as Hbb.
  rewrite f_lt_irrefl in Hbb. discriminate.
Qed.

Lemma step_best_changes st i st' k :
  minibatch_step c st i = Return (st', k) ->
  best_validation_loss st' <> best_validation_loss st ->
  ((epoch st - 1) * num_train_batches c + i + 1) mod validation_frequency c = 0 /\
  best_validation_loss st' = validation_loss c (params st') /\
  f_lt (best_validation_loss st') (best_validation_loss st) = true.
Proof.
  intros Hs Hne. pose proof (minibatch_step_spec _ _ _ Hs) as Sp.
  pose proof (spec_best Sp) as Hb. cbv zeta in Hb.
  destruct (((epoch st - 1) * num_train_batches c + i + 1) mod validation_frequency c =? 0)
    eqn:E1; [|simpl in Hb; congruence].
  destruct (improves (validation_loss c (params st')) (best_validation_loss st))
    eqn:E2; [|simpl in Hb; congruence].
  simpl in Hb. apply Z.eqb_eq in E1. repeat split; try assumption.
  rewrite Hb. exact E2.
Qed.

Lemma step_best_not_above st i st' k :
  minibatch_step c st i = Return (st', k) ->
  not_above (best_validation_loss st') (best_validation_loss st).
Proof.
  intros Hs. pose proof (minibatch_step_spec _ _ _ Hs) as Sp.
  pose proof (spec_best Sp) as Hb. cbv zeta in Hb.
  destruct (((epoch st - 1) * num_train_batches c + i + 1) mod validation_frequency c =? 0);
    [|left; exact Hb].
  destruct (improves (validation_loss c (params st')) (best_validation_loss st))
    eqn:E2; [|left; exact Hb].
  right. simpl in Hb. rewrite Hb. exact E2.
Qed.

Lemma reaches_best st st' :
  reaches c st st' -> not_above (best_validation_loss st') (best_validation_loss st).
Proof.
  apply (reaches_ind_rel
           (fun a b => not_above (best_validation_loss b) (best_validation_loss a))).
  - intros; left; reflexivity.
  - intros s1 s2 s3 H12 H23. eapply not_above_trans; eassumption.
  - intros s i s' k Hs. eapply step_best_not_above, Hs.
  - intros; left; reflexivity.
Qed.
End Best.

(** C4. The best validation loss never increases.  Between any two states
    of a run, and from the start of the [while] loop to its end,
    [best_validation_loss] is unchanged or strictly smaller, and is never
    larger.  A minibatch step changes it only at a validation check, to the
    validation loss just computed, and only when that loss is strictly below
    the best so far; otherwise the step, like the start of an epoch, leaves
    it as it is. *)
Theorem best_validation_loss_non_increasing
    {F P : Type} {ops : FloatOps F} {ord : FloatOrder ops} (c : env F P) :
  (forall st st',
     reaches c st st' ->
     (best_validation_loss st' = best_validation_loss st \/
      f_lt (best_validation_loss st') (best_validation_loss st) = true) /\
     f_lt (best_validation_loss st) (best_validation_loss st') = false) /\
  (forall fuel st st',
     while_loop c fuel st = Some (Return st') ->
     (best_validation_loss st' = best_validation_loss st \/
      f_lt (best_validation_loss st') (best_validation_loss st) = true) /\
     f_lt (best_validation_loss st) (best_validation_loss st') = false) /\
  (forall st i st' k,
     minibatch_step c st i = Return (st', k) ->
     best_validation_loss st' <> best_validation_loss st ->
     ((epoch st - 1) * num_train_batches c + i + 1) mod validation_frequency c = 0 /\
     best_validation_loss st' = validation_loss c (params st') /\
     f_lt (validation_loss c (params st')) (best_validation_loss st) = true) /\
  (forall st : loop_state F P,
     best_validation_loss (next_epoch st) = best_validation_loss st).
Proof.
  split; [|split; [|split]].
  - intros st st' Hr. pose proof (reaches_best Hr) as Hb.
    split; [exact Hb | apply not_above_not_lt; exact Hb].
  - intros fuel st st' Hw.
    pose proof (reaches_best (while_loop_reaches _ _ _ Hw)) as Hb.
    split; [exact Hb | apply not_above_not_lt; exact Hb].
  - intros st i st' k Hs Hne.
    edestruct (@step_best_changes F P ops c) as (H1 & H2 & H3); [exact Hs | exact Hne |].
    repeat split; try assumption. rewrite <- H2. exact H3.
  - reflexivity.
Qed.

(** C4 on the example back end: a run of three epochs of forty batches. *)
Lemma best_validation_loss_non_increasing_witness :
  exists st',
    while_loop (ExtQ.toy_env 40 1 1 3) 3 (initial_state 0) = Some (Return st') /\
    (best_validation_loss st' = best_validation_loss (initial_state (F := ExtQ.t) 0) \/
     f_lt (best_validation_loss st') (best_validation_loss (initial_state (F := ExtQ.t) 0))
       = true) /\
    f_lt (best_validation_loss (initial_state (F := ExtQ.t) 0)) (best_validation_loss st')
      = false.
Proof.
  eexists. split; [vm_compute; reflexivity|].
  apply (proj1 (proj2 (best_validation_loss_non_increasing (ExtQ.toy_env 40 1 1 3))) 3%nat).
  vm_compute. reflexivity.
Defined.

(** ** LogisticRegression.errors *)

Section ErrorsFacts.
Import Errors.

Lemma neq_vec_zero_one (a : list Z) : forall b,
  List.length a = List.length b -> neq_vec a b = Some (zero_one_losses a b).
Proof.
induction a as [|x a IH]; intros [|y b] Hlen; simpl in *; try discriminate.
- reflexivity.
- rewrite IH by congruence. reflexivity.
Qed.

Lemma neq_vec_length (a : list Z) : forall b r,
  neq_vec a b = Some r -> List.length a = List.length b.
Proof.
induction a as [|x a IH]; intros [|y b] r Hr; simpl in *; try discriminate.
- reflexivity.
- destruct (neq_vec a b) eqn:E; try discriminate. f_equal. eapply IH, E.
Qed.

Lemma errors_ndim_mismatch (y_prediction y : variable) :
  ndim y <> ndim y_prediction -> errors y_prediction y = Raise TypeError.
Proof.
intros Hne. unfold errors.
destruct (Nat.eqb (ndim y) (ndim y_prediction)) eqn:E; [|reflexivity].
apply Nat.eqb_eq in E. contradiction.
Qed.

Lemma errors_other_dtype (y_prediction y : variable) :
  ndim y = ndim y_prediction ->
  startswith (dtype y) "int" = false ->
  errors y_prediction y = Raise NotImplementedError.
Proof.
intros He Hd. unfold errors. rewrite He, Nat.eqb_refl, Hd. reflexivity.
Qed.

Lemma errors_int_dtype (y_prediction y : variable) :
  ndim y = ndim y_prediction ->
  startswith (dtype y) "int" = true ->
  errors y_prediction y = Return (T_mean (T_neq (Var y_prediction) (Var y))).
Proof.
intros He Hd. unfold errors. rewrite He, Nat.eqb_refl, Hd. reflexivity.
Qed.

End ErrorsFacts.

(** C8, as stated, fails: labels that are not integers do not give a
    [TypeError].  For a float label vector with the dimensions of the
    prediction [errors] raises [NotImplementedError]; and so it does for
    labels of an unsigned integer type, whose dtype name does not start with
    "int". *)
Lemma errors_float_labels_not_TypeError :
  Errors.errors (Errors.mkVar "y_pred" 1 "int64") (Errors.mkVar "y" 1 "float64")
    = Raise NotImplementedError /\
  Errors.errors (Errors.mkVar "y_pred" 1 "int64") (Errors.mkVar "y" 1 "float64")
    <> Raise TypeError /\
  Errors.errors (Errors.mkVar "y_pred" 1 "int64") (Errors.mkVar "y" 1 "uint8")
    = Raise NotImplementedError.
Proof. repeat split; try reflexivity. discriminate. Qed.

(** C8, amended.  [errors] raises [TypeError] when [y] does not have the
    number of dimensions of the prediction; with the same number of
    dimensions it raises [NotImplementedError] when the dtype name of [y]
    does not start with "int", so that labels of an unsupported type are
    signalled and never coerced; and when the name starts with "int" it
    returns the expression [mean(neq(y_prediction, y))], whose value on
    a prediction vector and a label vector of the same length is the mean of
    the zero-one losses of the minibatch. *)
Theorem errors_checks_labels (y_prediction y : Errors.variable) :
  (Errors.ndim y <> Errors.ndim y_prediction ->
   Errors.errors y_prediction y = Raise TypeError) /\
  (Errors.ndim y = Errors.ndim y_prediction ->
   Errors.startswith (Errors.dtype y) "int" = false ->
   Errors.errors y_prediction y = Raise NotImplementedError) /\
  (Errors.ndim y = Errors.ndim y_prediction ->
   Errors.startswith (Errors.dtype y) "int" = true ->
   exists e,
     Errors.errors y_prediction y = Return e /\
     forall (F : Type) (ops : FloatOps F) (rho : Errors.variable -> list Z),
       List.length (rho y_prediction) = List.length (rho y) ->
       Errors.eval rho e =
         Some (Errors.Scalar
                 (np_mean (map (fun z => f_lit (inject_Z z))
                             (Errors.zero_one_losses (rho y_prediction) (rho y)))))).
Proof.
split; [|split].
- apply errors_ndim_mismatch.
- apply errors_other_dtype.
- intros He Hd. eexists. split; [apply errors_int_dtype; assumption|].
  intros F ops rho Hlen. simpl.
  rewrite neq_vec_zero_one by assumption. reflexivity.
Qed.

(** C8 on examples: a label matrix against a prediction vector, float
    labels, and [int32] labels of which one in four is predicted wrongly. *)
Lemma errors_checks_labels_witness :
  Errors.errors (Errors.mkVar "y_pred" 1 "int64") (Errors.mkVar "y" 2 "int32")
    = Raise TypeError /\
  Errors.errors (Errors.mkVar "y_pred" 1 "int64") (Errors.mkVar "y" 1 "float32")
    = Raise NotImplementedError /\
  exists e,
    Errors.errors (Errors.mkVar "y_pred" 1 "int64") (Errors.mkVar "y" 1 "int32")
      = Return e /\
    Errors.eval
      (fun v => if String.eqb (Errors.name v) "y" then [3; 1; 4; 1] else [3; 1; 4; 5])
      e = Some (Errors.Scalar (ExtQ.Num (1 # 4))).
Proof.
pose (yp := Errors.mkVar "y_pred" 1 "int64").
split; [|split].
- apply (proj1 (errors_checks_labels yp (Errors.mkVar "y" 2 "int32"))).
  simpl. discriminate.
- apply (proj1 (proj2 (errors_checks_labels yp (Errors.mkVar "y" 1 "float32"))));
    reflexivity.
- destruct (proj2 (proj2 (errors_checks_labels yp (Errors.mkVar "y" 1 "int32")))
              eq_refl eq_refl) as (e & He & Hv).
  exists e. split; [exact He|].
  rewrite (Hv ExtQ.t ExtQ.ops) by reflexivity.
  vm_compute. reflexivity.
Defined.

(** ** load_data *)

Section LoadDataFacts.
Variable X : Type.

Lemma shared_dataset_default (s : split X) :
  shared_dataset s default_num_ex =
    (firstn (Z.to_nat 10000) (fst s), firstn (Z.to_nat 10000) (snd s)).
Proof.
destruct s as [xs ys]. unfold shared_dataset, default_num_ex.
rewrite !slice_to_nonneg by lia. reflexivity.
Qed.

Lemma shared_dataset_nonneg (s : split X) (n : Z) :
  0 <= n ->
  shared_dataset s n = (firstn (Z.to_nat n) (fst s), firstn (Z.to_nat n) (snd s)).
Proof.
intros Hn. destruct s as [xs ys]. unfold shared_dataset.
rewrite !slice_to_nonneg by assumption. reflexivity.
Qed.

Lemma shared_dataset_default_size (s : split X) :
  shape0 (shared_dataset s default_num_ex) <= 10000 /\
  Z.of_nat (List.length (snd (shared_dataset s default_num_ex))) <= 10000.
Proof.
rewrite shared_dataset_default. unfold shape0. cbn [fst snd].
rewrite !length_firstn. lia.
Qed.

End LoadDataFacts.

(** C10. Whatever the arguments, [load_data] cuts the validation and the
    test split down to their first 10000 samples (inputs and labels), so
    each holds at most 10000 samples and neither depends on [num_examples];
    the training split is cut to its first [num_examples] samples.  The
    splits [test_mlp] builds its validation and test functions from are
    those of [load_data], hence of at most 10000 samples each. *)
Theorem load_data_truncates_validation_and_test
    {X : Type} (data : pickled X) (num_ex : Z) :
  ds_valid (load_data data num_ex) =
    (firstn (Z.to_nat 10000) (fst (valid_set data)),
     firstn (Z.to_nat 10000) (snd (valid_set data))) /\
  ds_test (load_data data num_ex) =
    (firstn (Z.to_nat 10000) (fst (test_set data)),
     firstn (Z.to_nat 10000) (snd (test_set data))) /\
  shape0 (ds_valid (load_data data num_ex)) <= 10000 /\
  shape0 (ds_test (load_data data num_ex)) <= 10000 /\
  (forall n, ds_valid (load_data data n) = ds_valid (load_data data num_ex) /\
             ds_test (load_data data n) = ds_test (load_data data num_ex)) /\
  (0 <= num_ex ->
   ds_train (load_data data num_ex) =
     (firstn (Z.to_nat num_ex) (fst (train_set data)),
      firstn (Z.to_nat num_ex) (snd (train_set data)))) /\
  (forall (F P : Type) (ops : FloatOps F) (b : @backend F P X) (a : @arguments F X)
          (c : env F P) (p0 : P),
     build b a = Return (c, p0) ->
     exists valid test : split X,
       validate_model c = batch_errors b valid (batch_size a) /\
       test_model c = batch_errors b test (batch_size a) /\
       num_valid_batches c = shape0 valid / batch_size a /\
       num_test_batches c = shape0 test / batch_size a /\
       shape0 valid <= 10000 /\ shape0 test <= 10000).
Proof.
unfold load_data; cbn [ds_valid ds_test ds_train].
split; [apply shared_dataset_default|].
split; [apply shared_dataset_default|].
split; [apply shared_dataset_default_size|].
split; [apply shared_dataset_default_size|].
split; [intros n; split; reflexivity|].
split; [apply shared_dataset_nonneg|].
intros F P ops b a c p0 Hb.
unfold build, py_floordiv in Hb.
destruct (batch_size a =? 0); cbn [bind] in Hb; [discriminate|].
destruct (MLP_init b 1234 (28 * 28) (num_hidden a) 10) as [classifier|e];
  cbn [bind] in Hb; [|discriminate].
destruct (compile b (learning_rate a) (L1_reg a) (L2_reg a) (batch_size a) classifier);
  cbn [bind] in Hb; [|discriminate].
injection Hb as <- _.
exists (ds_valid (load_data (dataset a) (num_examples a))),
       (ds_test (load_data (dataset a) (num_examples a))).
simpl. repeat split; apply shared_dataset_default_size.
Qed.

(** C10 on a file with 10005 validation samples, 3 test samples and 50
    training samples of which 7 are asked for. *)
Lemma load_data_truncates_validation_and_test_witness :
  shape0 (ds_valid (load_data
            (mkPickled (ExtQ.samples 50 1) (ExtQ.samples 10005 1) (ExtQ.samples 3 1)) 7))
    <= 10000 /\
  ds_train (load_data
            (mkPickled (ExtQ.samples 50 1) (ExtQ.samples 10005 1) (ExtQ.samples 3 1)) 7)
    = ExtQ.samples 7 1.
Proof.
pose proof (load_data_truncates_validation_and_test
              (mkPickled (ExtQ.samples 50 1) (ExtQ.samples 10005 1) (ExtQ.samples 3 1)) 7)
  as (_ & _ & Hv & _ & _ & Ht & _).
split; [exact Hv|].
rewrite Ht by lia. reflexivity.
Defined.

(** ** When validation happens *)

Section Schedule.
Context {F P : Type} `{FloatOps F}.
Variable c : env F P.

(** A property of single states that steps and epoch starts preserve holds
    at the end of any run that starts in a state where it holds. *)
Lemma reaches_invariant (I : loop_state F P -> Prop) :
  (forall st i st' k, minibatch_step c st i = Return (st', k) -> I st -> I st') ->
  (forall st, I st -> I (next_epoch st)) ->
  forall st st', reaches c st st' -> I st -> I st'.
Proof.
intros Hstep Hepoch.
apply (reaches_ind_rel (fun a b => I a -> I b)); eauto.
Qed.

Lemma step_validation_passes st i st' k :
  minibatch_step c st i = Return (st', k) ->
  validation_passes (trace st') =
    if ((epoch st - 1) * num_train_batches c + i + 1) mod validation_frequency c =? 0
    then ((epoch st - 1) * num_train_batches c + i, validation_loss c (params st'))
           :: validation_passes (trace st)
    else validation_passes (trace st).
Proof.
intros Hs. pose proof (minibatch_step_spec _ _ _ Hs) as Sp.
rewrite (spec_trace Sp). cbv zeta.
destruct (((epoch st - 1) * num_train_batches c + i + 1) mod validation_frequency c =? 0);
  [destruct (improves _ _)|]; reflexivity.
Qed.

Lemma step_trained_iterations st i st' k :
  minibatch_step c st i = Return (st', k) ->
  trained_iterations (trace st') =
    ((epoch st - 1) * num_train_batches c + i) :: trained_iterations (trace st).
Proof.
intros Hs. pose proof (minibatch_step_spec _ _ _ Hs) as Sp.
rewrite (spec_trace Sp). cbv zeta.
destruct (((epoch st - 1) * num_train_batches c + i + 1) mod validation_frequency c =? 0);
  [destruct (improves _ _)|]; reflexivity.
Qed.

Lemma step_test_passes st i st' k :
  minibatch_step c st i = Return (st', k) ->
  test_passes (trace st') =
    if (((epoch st - 1) * num_train_batches c + i + 1) mod validation_frequency c =? 0)
       && improves (validation_loss c (params st')) (best_validation_loss st)
    then ((epoch st - 1) * num_train_batches c + i, test_loss c (params st'))
           :: test_passes (trace st)
    else test_passes (trace st).
Proof.
intros Hs. pose proof (minibatch_step_spec _ _ _ Hs) as Sp.
rewrite (spec_trace Sp). cbv zeta.
destruct (((epoch st - 1) * num_train_batches c + i + 1) mod validation_frequency c =? 0);
  [destruct (improves _ _)|]; reflexivity.
Qed.

Lemma step_validated_on_schedule st i st' k :
  minibatch_step c st i = Return (st', k) ->
  validated_on_schedule c st -> validated_on_schedule c st'.
Proof.
intros Hs Hv j. unfold validated_on_schedule in Hv.
rewrite (@step_validation_passes st i st' k Hs), (@step_trained_iterations st i st' k Hs).
destruct (((epoch st - 1) * num_train_batches c + i + 1) mod validation_frequency c =? 0)
  eqn:E; simpl; rewrite Hv.
- apply Z.eqb_eq in E. split.
  + intros [<-|[Hin Hm]]; split; auto.
  + intros [[<-|Hin] Hm]; auto.
- apply Z.eqb_neq in E. split.
  + intros [Hin Hm]; auto.
  + intros [[<-|Hin] Hm]; auto. contradiction.
Qed.

Lemma reaches_validated_on_schedule st st' :
  reaches c st st' -> validated_on_schedule c st -> validated_on_schedule c st'.
Proof.
apply reaches_invariant.
- intros s i s' k Hs. apply (@step_validated_on_schedule s i s' k Hs).
- intros s Hv. exact Hv.
Qed.
End Schedule.

Section BuildFacts.
Context {F P X : Type} `{FloatOps F}.

Lemma build_inv (b : @backend F P X) (a : @arguments F X) (c : env F P) (p0 : P) :
  build b a = Return (c, p0) ->
  batch_size a <> 0 /\
  c = {| train_model :=
           sgd b (learning_rate a) (L1_reg a) (L2_reg a)
             (ds_train (load_data (dataset a) (num_examples a))) (batch_size a);
         validate_model :=
           batch_errors b (ds_valid (load_data (dataset a) (num_examples a))) (batch_size a);
         test_model :=
           batch_errors b (ds_test (load_data (dataset a) (num_examples a))) (batch_size a);
         num_train_batches :=
           shape0 (ds_train (load_data (dataset a) (num_examples a))) / batch_size a;
         num_valid_batches :=
           shape0 (ds_valid (load_data (dataset a) (num_examples a))) / batch_size a;
         num_test_batches :=
           shape0 (ds_test (load_data (dataset a) (num_examples a))) / batch_size a;
         num_epochs := arg_num_epochs a |} /\
  (28 * 28 + num_hidden a <> 0 /\
   new_MLP b 1234 (28 * 28) (num_hidden a) 10 = Return p0 /\
   compile b (learning_rate a) (L1_reg a) (L2_reg a) (batch_size a) p0 = Return tt).
Proof.
unfold build, py_floordiv, MLP_init, weight_bound.
destruct (batch_size a =? 0) eqn:E; cbn [bind]; [discriminate|].
destruct (28 * 28 + num_hidden a =? 0) eqn:Eh; cbn [bind]; [discriminate|].
destruct (new_MLP b 1234 (28 * 28) (num_hidden a) 10) as [classifier|e] eqn:En;
  cbn [bind]; [|discriminate].
destruct (compile b (learning_rate a) (L1_reg a) (L2_reg a) (batch_size a) classifier)
  as [[]|e] eqn:Ec; cbn [bind]; [|discriminate].
intros Hb. injection Hb as <- <-.
apply Z.eqb_neq in E, Eh. auto.
Qed.

Lemma build_zero_batch_size (b : @backend F P X) (a : @arguments F X) :
  batch_size a = 0 -> build b a = Raise ZeroDivisionError.
Proof. intros Hz. unfold build, py_floordiv. rewrite Hz. reflexivity. Qed.

(** With a batch size other than 0, [build] fails as the construction of
    the model or the compilation of the functions fails. *)
Lemma build_zero_weight_bound (b : @backend F P X) (a : @arguments F X) :
  batch_size a <> 0 -> 28 * 28 + num_hidden a = 0 ->
  build b a = Raise ZeroDivisionError.
Proof.
intros Hz Hh. unfold build, py_floordiv, MLP_init, weight_bound.
apply Z.eqb_neq in Hz. rewrite Hz. cbn [bind].
apply Z.eqb_eq in Hh. rewrite Hh. reflexivity.
Qed.

Lemma build_returns (b : @backend F P X) (a : @arguments F X) (p0 : P) :
  batch_size a <> 0 ->
  28 * 28 + num_hidden a <> 0 ->
  new_MLP b 1234 (28 * 28) (num_hidden a) 10 = Return p0 ->
  compile b (learning_rate a) (L1_reg a) (L2_reg a) (batch_size a) p0 = Return tt ->
  exists c, build b a = Return (c, p0).
Proof.
intros Hz Hh Hn Hc. unfold build, py_floordiv, MLP_init, weight_bound.
apply Z.eqb_neq in Hz, Hh. rewrite Hz. cbn [bind]. rewrite Hh. cbn [bind].
rewrite Hn. cbn [bind]. rewrite Hc. cbn [bind]. eauto.
Qed.
End BuildFacts.

(** C6. [test_mlp] computes the number of batches of each split as
    [floor(split_size / batch_size)] and the validation frequency as
    [min(num_train_batches, patience // 2)] with the patience at its initial
    value 100.  With batches of 20 and a training split of 50000 samples
    that gives 2500 training batches and a validation frequency of 50.  A
    minibatch step makes a validation pass exactly when
    [(iteration + 1) % validation_frequency] is 0, and then one pass; so
    at the end of the [while] loop the iterations that had a validation pass
    are the iterations trained with [iteration + 1] a multiple of the
    validation frequency. *)
Theorem validation_frequency_and_schedule
    {F P X : Type} `{FloatOps F} (b : @backend F P X) (a : @arguments F X)
    (c : env F P) (p0 : P) :
  build b a = Return (c, p0) ->
  (num_train_batches c =
     shape0 (ds_train (load_data (dataset a) (num_examples a))) / batch_size a /\
   num_valid_batches c =
     shape0 (ds_valid (load_data (dataset a) (num_examples a))) / batch_size a /\
   num_test_batches c =
     shape0 (ds_test (load_data (dataset a) (num_examples a))) / batch_size a) /\
  (validation_frequency c = Z.min (num_train_batches c) (initial_patience / 2) /\
   initial_patience = 100 /\
   patience (initial_state (F := F) p0) = 100) /\
  (batch_size a = 20 ->
   shape0 (ds_train (load_data (dataset a) (num_examples a))) = 50000 ->
   num_train_batches c = 2500 /\ validation_frequency c = 50) /\
  (forall st i st' k,
     minibatch_step c st i = Return (st', k) ->
     ((validation_frequency c | (epoch st - 1) * num_train_batches c + i + 1) ->
      validation_passes (trace st') =
        ((epoch st - 1) * num_train_batches c + i, validation_loss c (params st'))
          :: validation_passes (trace st)) /\
     (~ (validation_frequency c | (epoch st - 1) * num_train_batches c + i + 1) ->
      validation_passes (trace st') = validation_passes (trace st))) /\
  (forall fuel st',
     while_loop c fuel (initial_state p0) = Some (Return st') ->
     forall j,
       In j (map fst (validation_passes (trace st'))) <->
       In j (trained_iterations (trace st')) /\ (validation_frequency c | j + 1)).
Proof.
intros Hb. destruct (build_inv _ _ Hb) as (Hbs & Hc & Hp0).
split; [subst c; simpl; auto|].
split; [repeat split|].
split.
{ intros H20 H50. subst c. unfold validation_frequency.
  cbn [num_train_batches]. rewrite H50, H20. split; reflexivity. }
split.
- intros st i st' k Hs.
  pose proof (minibatch_step_returns _ _ _ Hs) as Hvf.
  rewrite (@step_validation_passes F P _ c st i st' k Hs).
  split; intros Hd.
  + apply Z.mod_divide in Hd; [|assumption].
    apply Z.eqb_eq in Hd. rewrite Hd. reflexivity.
  + destruct (_ =? 0) eqn:E; [|reflexivity].
    apply Z.eqb_eq in E. apply Z.mod_divide in E; [contradiction|assumption].
- intros fuel st' Hw j.
  pose proof (reaches_validated_on_schedule (while_loop_reaches _ _ _ Hw)) as Hv.
  assert (Hinit : validated_on_schedule c (initial_state p0))
    by (intros j'; simpl; tauto).
  specialize (Hv Hinit j). rewrite Hv.
  destruct (Z.eq_dec (validation_frequency c) 0) as [Hz|Hnz].
  + assert (Hn : num_train_batches c <= 0).
    { unfold validation_frequency, initial_patience in Hz.
      change (100 / 2) with 50 in Hz. lia. }
    destruct (@while_loop_no_batches F P _ c (Z.to_nat (num_epochs c))
                (initial_state p0) Hn)
      as (st2 & Hw2 & _ & _ & _ & _ & _ & _ & Ht & _).
    { simpl. lia. }
    pose proof (@while_loop_fuel F P _ c _ _ _ _ _ Hw Hw2) as Heq.
    injection Heq as ->. rewrite Ht. simpl. tauto.
  + rewrite Z.mod_divide by assumption. tauto.
Qed.

(** C6 on the example back end: batches of 20 on a training split of 50000
    samples. *)
Lemma validation_frequency_and_schedule_witness :
  exists c p0,
    build ExtQ.toy
      (ExtQ.toy_args
         (mkPickled (ExtQ.samples 50000 1) (ExtQ.samples 40 1) (ExtQ.samples 40 0))
         1 20 50000) = Return (c, p0) /\
    num_train_batches c = 2500 /\ validation_frequency c = 50.
Proof.
destruct (@build_returns ExtQ.t Z Z ExtQ.toy
            (ExtQ.toy_args
               (mkPickled (ExtQ.samples 50000 1) (ExtQ.samples 40 1) (ExtQ.samples 40 0))
               1 20 50000) 0) as (c & Hb).
- simpl. discriminate.
- simpl. discriminate.
- reflexivity.
- reflexivity.
- exists c, 0. split; [exact Hb|].
  apply (proj1 (proj2 (proj2 (validation_frequency_and_schedule _ _ Hb)))).
  + reflexivity.
  + vm_compute. reflexivity.
Defined.

(** ** Termination of the training loop *)

Section Termination.
Context {F P : Type} `{FloatOps F}.
Variable c : env F P.
Hypothesis Hn : 1 <= num_train_batches c.

Lemma trained_in_order_initial (p0 : P) : trained_in_order c (initial_state p0).
Proof. repeat split; simpl; try lia. discriminate. Qed.

Lemma between_epochs_initial (p0 : P) : between_epochs c (initial_state p0).
Proof. repeat split; simpl; unfold initial_patience; lia. Qed.

Lemma trained_in_order_epoch st :
  trained_in_order c st -> between_epochs c st -> trained_in_order c (next_epoch st).
Proof.
intros (H1 & H2 & H3 & H4) (Hd & _ & _).
unfold trained_in_order, last_iteration in *. simpl.
split; [assumption|]. split; [assumption|]. split; [lia|].
intros Hd'. congruence.
Qed.

Lemma trained_in_order_step st i st' k :
  trained_in_order c st ->
  done_looping st = false ->
  0 <= i < num_train_batches c ->
  last_iteration st = (epoch st - 1) * num_train_batches c + i - 1 ->
  last_iteration st < patience st ->
  minibatch_step c st i = Return (st', k) ->
  trained_in_order c st'.
Proof.
intros (H1 & H2 & H3 & H4) Hd Hi Hlast Hpat Hs.
pose proof (minibatch_step_spec _ _ _ Hs) as Sp.
pose proof (spec_iteration Sp) as Hit. pose proof (spec_epoch Sp) as He.
assert (Hl : last_iteration st' = last_iteration st + 1)
  by (unfold last_iteration at 1; rewrite Hit; lia).
repeat split.
- lia.
- rewrite (@step_trained_iterations F P _ c st i st' k Hs), Hl, H2.
  rewrite (py_range_succ (k := last_iteration st + 1)) by lia.
  rewrite rev_app_distr. simpl. f_equal. lia.
- rewrite Hl, He. nia.
- intros _. rewrite Hl, He. lia.
Qed.

Lemma training_loop_returns (p0 : P) (fuel : nat) :
  (Z.to_nat (num_epochs c) <= fuel)%nat ->
  exists st',
    while_loop c fuel (initial_state p0) = Some (Return st') /\
    trained_in_order c st' /\
    ((stopped_early st' /\ 0 < epoch st' <= num_epochs c)
     \/
     (between_epochs c st' /\ num_epochs c <= epoch st' /\
      (0 < num_epochs c -> epoch st' = num_epochs c))).
Proof.
intros Hfuel.
destruct (@while_loop_inv F P _ c (trained_in_order c) Hn trained_in_order_epoch
            trained_in_order_step fuel (initial_state p0)
            (trained_in_order_initial p0) (between_epochs_initial p0))
  as (st' & Hw & HI & Hfin).
- simpl. rewrite Z.sub_0_r. exact Hfuel.
- exists st'. split; [exact Hw|]. split; [exact HI|].
  simpl in Hfin. destruct Hfin as [Hs | (Hb & He & He' & _)]; [left | right]; auto.
Qed.
End Termination.

(** C2. With at least one epoch allowed and at least one training batch, the
    [while] loop of [test_mlp] terminates: there is a final state that the
    loop returns with any fuel from [num_epochs] on.  In that state the loop
    condition is false, the iterations trained are 0, 1, ..., [i] for the
    last iteration [i], and one of two things holds.  Either the loop was
    stopped by the patience test, at the first iteration with
    [iteration + 1 > patience] (which is [iteration = patience]), within the
    epoch budget and possibly before the end of the current epoch, whose
    remaining minibatches are not trained; or all [num_epochs] epochs were
    run in full and [iteration + 1 > patience] never held. *)
Theorem training_loop_terminates {F P : Type} `{FloatOps F} (c : env F P) (p0 : P) :
  1 <= num_epochs c ->
  1 <= num_train_batches c ->
  exists st' i,
    (forall fuel, (Z.to_nat (num_epochs c) <= fuel)%nat ->
       while_loop c fuel (initial_state p0) = Some (Return st')) /\
    loop_condition c st' = false /\
    iteration st' = Some i /\
    trained_iterations (trace st') = rev (py_range (i + 1)) /\
    ((done_looping st' = true /\
      i + 1 > patience st' /\ i = patience st' /\
      epoch st' <= num_epochs c /\
      (epoch st' - 1) * num_train_batches c <= i < epoch st' * num_train_batches c)
     \/
     (done_looping st' = false /\
      ~ i + 1 > patience st' /\
      epoch st' = num_epochs c /\
      i = num_epochs c * num_train_batches c - 1)).
Proof.
intros HN Hn.
destruct (@training_loop_returns F P _ c Hn p0 (Z.to_nat (num_epochs c)) (Nat.le_refl _))
  as (st' & Hw & (H1 & H2 & H3 & H4) & Hfin).
assert (Hall : forall fuel, (Z.to_nat (num_epochs c) <= fuel)%nat ->
                 while_loop c fuel (initial_state p0) = Some (Return st')).
{ intros fuel Hfuel.
  destruct (@training_loop_returns F P _ c Hn p0 fuel Hfuel) as (st2 & Hw2 & _).
  rewrite Hw2.
  pose proof (@while_loop_fuel F P _ c _ _ _ _ _ Hw Hw2) as Heq.
  congruence. }
destruct Hfin as [[[Hd Hi] He] | ((Hd & Hl & Hp) & He & He')].
- exists st', (patience st').
  unfold last_iteration in *. rewrite Hi in *.
  split; [exact Hall|].
  split; [unfold loop_condition; rewrite Hd; apply andb_false_r|].
  split; [reflexivity|]. split; [exact H2|].
  left. specialize (H4 Hd). repeat split; try assumption; lia.
- specialize (He' ltac:(lia)).
  destruct (iteration st') as [i|] eqn:Hi; unfold last_iteration in *; rewrite Hi in *.
  + exists st', i.
    split; [exact Hall|].
    split; [unfold loop_condition; rewrite Hd, He', Z.ltb_irrefl; reflexivity|].
    split; [exact Hi|]. split; [exact H2|].
    right. repeat split; try assumption; try lia.
  + exfalso. rewrite He' in Hl. nia.
Qed.

(** C2 on the example back end: one batch per epoch stops by patience at
    iteration 100 when 1000 epochs are allowed, and runs out of epochs when
    3 are. *)
Lemma training_loop_terminates_witness :
  (exists st' i,
     while_loop (ExtQ.toy_env 7 1 1 3) 3 (initial_state 0) = Some (Return st') /\
     iteration st' = Some i /\ done_looping st' = false /\ i = 20) /\
  (exists st' i,
     while_loop (ExtQ.toy_env 1 0 0 1000) 1000 (initial_state 0) = Some (Return st') /\
     iteration st' = Some i /\ done_looping st' = true /\ i = 100).
Proof.
split.
- destruct (training_loop_terminates (ExtQ.toy_env 7 1 1 3) 0)
    as (st' & i & Hw & _ & Hi & _ & Hfin); [simpl; lia | simpl; lia |].
  exists st', i. split; [apply Hw; simpl; lia|]. split; [exact Hi|].
  specialize (Hw 3%nat ltac:(simpl; lia)).
  vm_compute in Hw. injection Hw as <-.
  vm_compute in Hi. injection Hi as <-. split; reflexivity.
- destruct (training_loop_terminates (ExtQ.toy_env 1 0 0 1000) 0)
    as (st' & i & Hw & _ & Hi & _ & Hfin); [simpl; lia | simpl; lia |].
  exists st', i. split; [apply Hw; simpl; lia|]. split; [exact Hi|].
  specialize (Hw 1000%nat ltac:(simpl; lia)).
  vm_compute in Hw. injection Hw as <-.
  vm_compute in Hi. injection Hi as <-. split; reflexivity.
Defined.

(** ** The test score is that of the best model *)

Section BestModel.
Context {F P : Type} `{FloatOps F}.
Variable c : env F P.
Variable p0 : P.
Hypothesis Hn : 1 <= num_train_batches c.



End BestModel.

(** Runs on two environments that differ only in the test function and in
    the number of test batches. *)
Section TestData.
Context {F P : Type} `{FloatOps F}.
Variables c c' : env F P.
Hypothesis Htrain : train_model c' = train_model c.
Hypothesis Hvalid : validate_model c' = validate_model c.
Hypothesis Hn_train : num_train_batches c' = num_train_batches c.
Hypothesis Hn_valid : num_valid_batches c' = num_valid_batches c.
Hypothesis Hepochs : num_epochs c' = num_epochs c.

Lemma validation_frequency_agree : validation_frequency c' = validation_frequency c.
Proof. unfold validation_frequency. now rewrite Hn_train. Qed.

Lemma validation_loss_agree (p : P) : validation_loss c' p = validation_loss c p.
Proof. unfold validation_loss. now rewrite Hvalid, Hn_valid. Qed.

Lemma minibatch_step_agree st1 st2 i :
  agree_but_test st1 st2 ->
  match minibatch_step c st1 i, minibatch_step c' st2 i with
  | Return (a, k), Return (b, k') => agree_but_test a b /\ k = k'
  | Raise e, Raise e' => e = e'
  | _, _ => False
  end.
Proof.
intros (A1 & A2 & A3 & A4 & A5 & A6 & A7 & A8 & A9).
destruct (Z.eq_dec (validation_frequency c) 0) as [Hz|Hnz].
- rewrite !minibatch_step_zero_frequency;
    [reflexivity | rewrite validation_frequency_agree; exact Hz | exact Hz].
- destruct (minibatch_step_total c st1 i Hnz) as (a & k & Hs).
  destruct (minibatch_step_total c' st2 i) as (b & k' & Hs');
    [rewrite validation_frequency_agree; exact Hnz|].
  rewrite Hs, Hs'.
  pose proof (minibatch_step_spec _ _ _ Hs) as Sa.
  pose proof (minibatch_step_spec _ _ _ Hs') as Sb.
  assert (Bp : params b = params a).
  { rewrite (spec_params Sa), (spec_params Sb), Htrain, A1. reflexivity. }
  assert (Bpat : patience b = patience a).
  { rewrite (spec_patience Sa), (spec_patience Sb). cbv zeta.
    rewrite validation_frequency_agree, validation_loss_agree, Hn_train.
    rewrite A2, A5, A6, Bp. reflexivity. }
  split.
  + repeat split.
    * exact Bp.
    * rewrite (spec_epoch Sa), (spec_epoch Sb). exact A2.
    * rewrite (spec_done Sa), (spec_done Sb), Bpat, Hn_train, A2, A3. reflexivity.
    * rewrite (spec_iteration Sa), (spec_iteration Sb), Hn_train, A2. reflexivity.
    * exact Bpat.
    * rewrite (spec_best Sa), (spec_best Sb). cbv zeta.
      rewrite validation_frequency_agree, validation_loss_agree, Hn_train.
      rewrite A2, A6, Bp. reflexivity.
    * rewrite (spec_best_iteration Sa), (spec_best_iteration Sb). cbv zeta.
      rewrite validation_frequency_agree, validation_loss_agree, Hn_train.
      rewrite A2, A6, A7, Bp. reflexivity.
    * rewrite (@step_trained_iterations F P _ c st1 i a k Hs),
        (@step_trained_iterations F P _ c' st2 i b k' Hs').
      rewrite Hn_train, A2, A8. reflexivity.
    * rewrite (@step_validation_passes F P _ c st1 i a k Hs),
        (@step_validation_passes F P _ c' st2 i b k' Hs').
      rewrite validation_frequency_agree, validation_loss_agree, Hn_train.
      rewrite A2, A9, Bp. reflexivity.
  + rewrite (spec_ctl Sa), (spec_ctl Sb), Bpat, Hn_train, A2. reflexivity.
Qed.

Lemma for_minibatches_agree (indices : list Z) : forall st1 st2,
  agree_but_test st1 st2 ->
  match for_minibatches c indices st1, for_minibatches c' indices st2 with
  | Return a, Return b => agree_but_test a b
  | Raise e, Raise e' => e = e'
  | _, _ => False
  end.
Proof.
induction indices as [|i rest IH]; intros st1 st2 Ha; simpl.
- exact Ha.
- pose proof (minibatch_step_agree i Ha) as Hs.
  destruct (minibatch_step c st1 i) as [[a [|]]|e];
    destruct (minibatch_step c' st2 i) as [[b [|]]|e']; try contradiction;
    try (exfalso; destruct Hs; discriminate).
  + apply IH. apply Hs.
  + apply Hs.
  + exact Hs.
Qed.

Lemma while_loop_agree (fuel : nat) : forall st1 st2,
  agree_but_test st1 st2 ->
  match while_loop c fuel st1, while_loop c' fuel st2 with
  | Some (Return a), Some (Return b) => agree_but_test a b
  | Some (Raise e), Some (Raise e') => e = e'
  | None, None => True
  | _, _ => False
  end.
Proof.
induction fuel as [|fuel IH]; intros st1 st2 Ha; simpl;
  assert (Hc : loop_condition c' st2 = loop_condition c st1)
    by (destruct Ha as (_ & A2 & A3 & _); unfold loop_condition;
        rewrite Hepochs, A2, A3; reflexivity);
  rewrite Hc; destruct (loop_condition c st1); try exact Ha; try exact I.
rewrite Hn_train.
assert (Ha' : agree_but_test (next_epoch st1) (next_epoch st2)).
{ destruct Ha as (A1 & A2 & A3 & A4 & A5 & A6 & A7 & A8 & A9).
  repeat split; simpl; try assumption. rewrite A2. reflexivity. }
pose proof (for_minibatches_agree (py_range (num_train_batches c)) Ha') as Hf.
destruct (for_minibatches c (py_range (num_train_batches c)) (next_epoch st1)) as [a|e];
  destruct (for_minibatches c' (py_range (num_train_batches c)) (next_epoch st2)) as [b|e'];
  try contradiction.
- apply IH. exact Hf.
- exact Hf.
Qed.
End TestData.

Section RunInvariant.
Context {F P : Type} `{FloatOps F}.
Variable c : env F P.
Variable I : loop_state F P -> Prop.
Hypothesis Hn : 1 <= num_train_batches c.
Hypothesis I_epoch : forall st, I st -> between_epochs c st -> I (next_epoch st).
Hypothesis I_step : forall st i st' k,
  I st ->
  done_looping st = false ->
  0 <= i < num_train_batches c ->
  last_iteration st = (epoch st - 1) * num_train_batches c + i - 1 ->
  last_iteration st < patience st ->
  minibatch_step c st i = Return (st', k) ->
  I st'.

End RunInvariant.




(** ** test_mlp as a whole *)

Section WholeRun.
Context {F P X : Type} `{FloatOps F}.


Lemma test_mlp_zero_batch_size (b : @backend F P X) (a : @arguments F X) (fuel : nat) :
  batch_size a = 0 -> test_mlp b a fuel = Some (Raise ZeroDivisionError).
Proof.
intros Hz. unfold test_mlp, run. rewrite build_zero_batch_size by assumption.
reflexivity.
Qed.



Lemma build_with_timer (b : @backend F P X) (timer : nat -> F) (a : @arguments F X) :
  build (with_timer b timer) a = build b a.
Proof. reflexivity. Qed.

Lemma test_mlp_fuel_and_timer (b : @backend F P X) (timer1 timer2 : nat -> F)
    (a : @arguments F X) (fuel1 fuel2 : nat) r1 r2 :
  test_mlp (with_timer b timer1) a fuel1 = Some r1 ->
  test_mlp (with_timer b timer2) a fuel2 = Some r2 ->
  r1 = r2.
Proof.
unfold test_mlp, run. rewrite !build_with_timer.
destruct (build b a) as [[c p0]|e]; [|congruence].
destruct (while_loop c fuel1 (initial_state p0)) as [o1|] eqn:H1; [|discriminate].
destruct (while_loop c fuel2 (initial_state p0)) as [o2|] eqn:H2;
  [|destruct o1; discriminate].
pose proof (@while_loop_fuel F P _ c _ _ _ _ _ H1 H2) as Heq. subst o2.
destruct o1; intros E1 E2; injection E1 as <-; injection E2 as <-; reflexivity.
Qed.
End WholeRun.




(** ** The first validation check *)

Section FirstCheck.
Context {F P : Type} {ops : FloatOps F}.
Variable c : env F P.

Lemma step_initial_until_checked st i st' k :
  minibatch_step c st i = Return (st', k) ->
  initial_until_checked st -> initial_until_checked st'.
Proof.
intros Hs Hst Hnil. pose proof (minibatch_step_spec _ _ _ Hs) as Sp.
rewrite (@step_validation_passes F P _ c st i st' k Hs) in Hnil.
rewrite (spec_best Sp), (spec_best_iteration Sp), (spec_test_score Sp). cbv zeta.
destruct (_ =? 0); [discriminate|]. simpl. apply Hst. exact Hnil.
Qed.

Lemma reaches_initial_until_checked (p0 : P) st :
  reaches c (initial_state p0) st -> initial_until_checked st.
Proof.
intros Hr. eapply (@reaches_invariant F P _ c (@initial_until_checked F P _)); [| |exact Hr|].
- intros s i s' k Hs. apply (@step_initial_until_checked s i s' k Hs).
- intros s Hs. exact Hs.
- intros _. repeat split.
Qed.

Context {ord : FloatOrder ops}.

Lemma step_below_inf_once_checked st i st' k :
  minibatch_step c st i = Return (st', k) ->
  below_inf_once_checked st -> below_inf_once_checked st'.
Proof.
intros Hs (Hb & Hv). pose proof (minibatch_step_spec _ _ _ Hs) as Sp.
unfold below_inf_once_checked.
rewrite (@step_validation_passes F P _ c st i st' k Hs), (spec_best Sp). cbv zeta.
set (this := validation_loss c (params st')).
destruct (_ =? 0); [|split; assumption].
simpl. destruct (improves this (best_validation_loss st)) eqn:E; unfold improves in E.
- assert (Hthis : f_lt this f_inf = true).
  { destruct Hb as [Hb|Hb]; [rewrite <- Hb; exact E|].
    eapply f_lt_trans; eassumption. }
  split; [right; exact Hthis|]. intros; exact Hthis.
- split; [exact Hb|].
  intros j l [Heq|Hin] Hl; [|eapply Hv; eassumption].
  injection Heq as _ <-.
  destruct Hb as [Hb|Hb]; [|exact Hb].
  rewrite Hb in E. congruence.
Qed.

Lemma reaches_below_inf_once_checked (p0 : P) st :
  reaches c (initial_state p0) st -> below_inf_once_checked st.
Proof.
intros Hr. eapply (@reaches_invariant F P _ c (@below_inf_once_checked F P _)); [| |exact Hr|].
- intros s i s' k Hs. apply (@step_below_inf_once_checked s i s' k Hs).
- intros s Hs. exact Hs.
- split; [left; reflexivity|]. intros i l [].
Qed.

Lemma below_inf_is_not_inf (x : F) : f_lt x f_inf = true -> x <> f_inf.
Proof. intros Hlt ->. rewrite f_lt_irrefl in Hlt. discriminate. Qed.
End FirstCheck.

(** ** A validation split without a batch *)

Section NoValidationBatch.
Context {F P : Type} {ops : FloatOps F}.
Variable c : env F P.
Hypothesis Hvalid : num_valid_batches c <= 0.
Hypothesis Hnan : f_lt (np_mean []) f_inf = false.

Lemma validation_loss_no_batch (p : P) : validation_loss c p = np_mean [].
Proof. unfold validation_loss. rewrite py_range_nil by exact Hvalid. reflexivity. Qed.

Lemma step_never_improves st i st' k :
  minibatch_step c st i = Return (st', k) ->
  never_improved st -> never_improved st'.
Proof.
intros Hs (Hv & Hb & Hbi & Hts & Htp).
pose proof (minibatch_step_spec _ _ _ Hs) as Sp.
unfold never_improved.
rewrite (@step_validation_passes F P _ c st i st' k Hs).
rewrite (@step_test_passes F P _ c st i st' k Hs).
rewrite (spec_best Sp), (spec_best_iteration Sp), (spec_test_score Sp). cbv zeta.
rewrite validation_loss_no_batch. unfold improves. rewrite Hb, Hnan.
rewrite Bool.andb_false_r.
split; [|auto].
destruct (((epoch st - 1) * num_train_batches c + i + 1) mod validation_frequency c =? 0);
  [|exact Hv].
intros j l [Hjl | Hin]; [injection Hjl as _ <-; reflexivity | exact (Hv j l Hin)].
Qed.

Lemma reaches_never_improves (p0 : P) (st : loop_state F P) :
  reaches c (initial_state p0) st -> never_improved st.
Proof.
intros Hr.
apply (@reaches_invariant F P _ c (@never_improved F P ops)) with (st := initial_state p0).
- exact step_never_improves.
- intros s Hs. exact Hs.
- exact Hr.
- unfold never_improved. simpl. split; [intros j l []|]. repeat split.
Qed.
End NoValidationBatch.

(** C7, as stated, fails: the best validation loss can remain [inf] after a
    validation check.  With fifty training samples, ten validation samples
    and batches of 20 there are two training batches and no validation
    batch; the check at iteration 1 averages no loss at all, which gives
    NaN, and NaN is not below [inf]: the run ends with [inf] as its best
    validation loss. *)
Lemma best_validation_loss_remains_inf :
  exists l,
    run ExtQ.toy ExtQ.no_validation_batch_args 1 = Some (Return l) /\
    validation_passes (trace (final l)) = [(1, ExtQ.NaN)] /\
    best_validation_loss (final l) = ExtQ.PosInf /\
    test_passes (trace (final l)) = [] /\
    test_mlp ExtQ.toy ExtQ.no_validation_batch_args 1
      = Some (Return (ExtQ.PosInf, ExtQ.Num 0)).
Proof.
eexists. split; [vm_compute; reflexivity|].
vm_compute. repeat split.
Qed.

(** C7, amended.  In a run from the initial state, as long as no validation
    check has been made the best validation loss is [inf], the best
    iteration 0 and the test score 0.  The first check that is made, if the
    validation loss it computes is below [inf] (as every finite loss is),
    counts it as an improvement and sets the best validation loss (to that
    loss, which is not [inf]), the best iteration and the test score.  And
    in every state of the run, once some validation check has computed a
    loss below [inf] the best validation loss is below [inf], so it is not
    [inf] any more.  When the validation split has no batch, every check
    computes the mean of no loss; that mean (NaN) is not below [inf], and
    then, whatever checks are made, the best validation loss stays [inf],
    the best iteration 0 and the test score 0, and no test pass is made. *)
Theorem first_validation_check_sets_best
    {F P : Type} {ops : FloatOps F} {ord : FloatOrder ops} (c : env F P) (p0 : P) :
  (forall st,
     reaches c (initial_state p0) st ->
     validation_passes (trace st) = [] ->
     best_validation_loss st = f_inf /\
     best_iteration st = 0 /\
     test_score st = f_lit 0) /\
  (forall st i st' k,
     reaches c (initial_state p0) st ->
     validation_passes (trace st) = [] ->
     minibatch_step c st i = Return (st', k) ->
     ((epoch st - 1) * num_train_batches c + i + 1) mod validation_frequency c = 0 ->
     f_lt (validation_loss c (params st')) f_inf = true ->
     validation_passes (trace st') =
       [((epoch st - 1) * num_train_batches c + i, validation_loss c (params st'))] /\
     best_validation_loss st' = validation_loss c (params st') /\
     best_validation_loss st' <> f_inf /\
     best_iteration st' = (epoch st - 1) * num_train_batches c + i /\
     test_score st' = test_loss c (params st')) /\
  (forall st i l,
     reaches c (initial_state p0) st ->
     In (i, l) (validation_passes (trace st)) ->
     f_lt l f_inf = true ->
     f_lt (best_validation_loss st) f_inf = true /\
     best_validation_loss st <> f_inf) /\
  (num_valid_batches c <= 0 ->
   f_lt (np_mean []) f_inf = false ->
   forall st,
     reaches c (initial_state p0) st ->
     (forall i l, In (i, l) (validation_passes (trace st)) -> l = np_mean []) /\
     best_validation_loss st = f_inf /\
     best_iteration st = 0 /\
     test_score st = f_lit 0 /\
     test_passes (trace st) = []).
Proof.
split; [|split; [|split]].
- intros st Hr. exact (reaches_initial_until_checked Hr).
- intros st i st' k Hr Hnil Hs Hm Hlt.
  destruct (reaches_initial_until_checked Hr Hnil) as (Hb & _).
  pose proof (minibatch_step_spec _ _ _ Hs) as Sp.
  rewrite (@step_validation_passes F P _ c st i st' k Hs).
  rewrite (spec_best Sp), (spec_best_iteration Sp), (spec_test_score Sp). cbv zeta.
  apply Z.eqb_eq in Hm. rewrite Hm, Hb, Hnil. unfold improves. rewrite Hlt. simpl.
  repeat split. apply below_inf_is_not_inf. exact Hlt.
- intros st i l Hr Hin Hlt.
  destruct (reaches_below_inf_once_checked Hr) as (_ & Hv).
  pose proof (Hv i l Hin Hlt) as Hbelow.
  split; [exact Hbelow | apply below_inf_is_not_inf; exact Hbelow].
- intros Hvalid Hnan st Hr.
  exact (@reaches_never_improves F P ops c Hvalid Hnan p0 st Hr).
Qed.

(** C7 amended, on the example back end: three epochs of forty batches with
    one validation batch, where the checks are at iterations 39, 79 and
    119; and one epoch of two batches with no validation batch, where the
    check at iteration 1 leaves the best validation loss at [inf]. *)
Lemma first_validation_check_sets_best_witness :
  (exists st',
     while_loop (ExtQ.toy_env 40 1 1 3) 3 (initial_state 0) = Some (Return st') /\
     In (39, ExtQ.Num (1 # 41)) (validation_passes (trace st')) /\
     f_lt (best_validation_loss st') f_inf = true /\
     best_validation_loss st' <> f_inf) /\
  (exists st',
     while_loop (ExtQ.toy_env 2 0 1 1) 1 (initial_state 0) = Some (Return st') /\
     validation_passes (trace st') = [(1, ExtQ.NaN)] /\
     best_validation_loss st' = f_inf /\
     test_passes (trace st') = []).
Proof.
split.
- eexists. split; [vm_compute; reflexivity|].
  split; [vm_compute; auto|].
  apply (proj1 (proj2 (proj2 (first_validation_check_sets_best (ExtQ.toy_env 40 1 1 3) 0)))
           _ 39 (ExtQ.Num (1 # 41))).
  + eapply while_loop_reaches with (fuel := 3%nat). vm_compute. reflexivity.
  + vm_compute. auto.
  + reflexivity.
- eexists. split; [vm_compute; reflexivity|].
  split; [vm_compute; reflexivity|].
  pose proof (proj2 (proj2 (proj2
                (@first_validation_check_sets_best ExtQ.t Z ExtQ.ops ExtQ_order
                   (ExtQ.toy_env 2 0 1 1) 0)))) as Hnone.
  specialize (Hnone ltac:(vm_compute; discriminate) eq_refl).
  match goal with
  | |- best_validation_loss ?s = _ /\ _ =>
      destruct (Hnone s) as (_ & Hb & _ & _ & Ht);
        [eapply while_loop_reaches with (fuel := 1%nat); vm_compute; reflexivity|]
  end.
  split; [exact Hb | exact Ht].
Defined.

(** * Further facts *)

(** ** The end of the loop *)

Section LoopEnd.
Context {F P : Type} `{FloatOps F}.
Variable c : env F P.
Variable I : loop_state F P -> Prop.
Hypothesis Hn : 1 <= num_train_batches c.
Hypothesis I_epoch : forall st, I st -> between_epochs c st -> I (next_epoch st).
Hypothesis I_step : forall st i st' k,
  I st ->
  done_looping st = false ->
  0 <= i < num_train_batches c ->
  last_iteration st = (epoch st - 1) * num_train_batches c + i - 1 ->
  last_iteration st < patience st ->
  minibatch_step c st i = Return (st', k) ->
  I st'.

(** The state in which the loop ends satisfies the invariant [I], has its
    iterations in order, and is either stopped by the patience test or at
    the end of the last epoch. *)
Lemma while_loop_end (p0 : P) (fuel : nat) (st' : loop_state F P) :
  I (initial_state p0) ->
  while_loop c fuel (initial_state p0) = Some (Return st') ->
  I st' /\
  trained_in_order c st' /\
  ((stopped_early st' /\ 0 < epoch st' <= num_epochs c)
   \/
   (between_epochs c st' /\
    (0 < num_epochs c -> epoch st' = num_epochs c) /\
    (num_epochs c <= 0 -> st' = initial_state p0))).
Proof.
intros Hinit Hw.
destruct (@while_loop_inv F P _ c (fun st => I st /\ trained_in_order c st) Hn)
  with (fuel := Z.to_nat (num_epochs c)) (st := initial_state p0)
  as (st2 & Hw2 & (HI & Ht) & Hfin).
- intros st [H1 H2] Hb. split; [apply I_epoch | apply trained_in_order_epoch]; assumption.
- intros st i s' k [H1 H2] Hd Hi Hl Hp Hs.
  split; [eapply I_step | eapply trained_in_order_step]; eassumption.
- split; [exact Hinit | apply trained_in_order_initial].
- apply between_epochs_initial.
- simpl. rewrite Z.sub_0_r. apply Nat.le_refl.
- pose proof (@while_loop_fuel F P _ c _ _ _ _ _ Hw Hw2) as Heq.
  injection Heq as ->.
  split; [exact HI|]. split; [exact Ht|].
  simpl in Hfin. destruct Hfin as [Hs | (Hb & _ & He & Hi)]; [left; exact Hs|].
  right. split; [exact Hb|]. split; [exact He | exact Hi].
Qed.
End LoopEnd.

(** ** The window of early stopping *)

Section Window.
Context {F P : Type} `{FloatOps F}.
Variable c : env F P.

Lemma patience_window_initial (p0 : P) : patience_window (initial_state p0).
Proof.
unfold patience_window. simpl. unfold initial_patience. lia.
Qed.

Lemma patience_window_step st i st' k :
  patience_window st ->
  last_iteration st = (epoch st - 1) * num_train_batches c + i - 1 ->
  minibatch_step c st i = Return (st', k) ->
  patience_window st'.
Proof.
intros (H2 & H3) Hlast Hs.
pose proof (minibatch_step_spec _ _ _ Hs) as Sp.
pose proof (spec_iteration Sp) as Hit.
pose proof (spec_patience Sp) as Hp. pose proof (spec_best_iteration Sp) as Hb.
cbv zeta in Hp, Hb.
set (it := (epoch st - 1) * num_train_batches c + i) in *.
assert (H1 : 0 <= best_iteration st <= Z.max 0 (it - 1) /\ 0 <= it).
{ unfold last_iteration in Hlast. destruct (iteration st) as [j|]; lia. }
unfold patience_window. rewrite Hit, Hp, Hb.
unfold initial_patience, patience_increase in *.
destruct ((it + 1) mod validation_frequency c =? 0); cbn [andb];
  [destruct (improves _ _); cbn [andb]; [destruct (significant _ _)|]|]; lia.
Qed.

Lemma while_loop_window_end (p0 : P) (fuel : nat) (st' : loop_state F P) :
  1 <= num_train_batches c ->
  while_loop c fuel (initial_state p0) = Some (Return st') ->
  patience_window st' /\
  trained_in_order c st' /\
  ((stopped_early st' /\ 0 < epoch st' <= num_epochs c)
   \/
   (between_epochs c st' /\
    (0 < num_epochs c -> epoch st' = num_epochs c) /\
    (num_epochs c <= 0 -> st' = initial_state p0))).
Proof.
intros Hn Hw.
assert (He : forall st : loop_state F P,
          patience_window st -> between_epochs c st -> patience_window (next_epoch st))
  by (intros st Hs _; exact Hs).
assert (Hst : forall st i s' k,
          patience_window st -> done_looping st = false ->
          0 <= i < num_train_batches c ->
          last_iteration st = (epoch st - 1) * num_train_batches c + i - 1 ->
          last_iteration st < patience st ->
          minibatch_step c st i = Return (s', k) -> patience_window s')
  by (intros st i s' k Hs _ _ Hl _ Hm; eapply patience_window_step; eassumption).
exact (@while_loop_end F P _ c (@patience_window F P) Hn He Hst p0 fuel st'
         (patience_window_initial p0) Hw).
Qed.

Lemma while_loop_no_batches_end (p0 : P) (fuel : nat) (st' : loop_state F P) :
  num_train_batches c <= 0 ->
  while_loop c fuel (initial_state p0) = Some (Return st') ->
  iteration st' = None /\
  patience st' = initial_patience /\
  best_validation_loss st' = f_inf /\
  best_iteration st' = 0 /\
  trace st' = [] /\
  done_looping st' = false.
Proof.
intros Hn Hw.
destruct (@while_loop_no_batches F P _ c (Z.to_nat (num_epochs c))
            (initial_state p0) Hn)
  as (st2 & Hw2 & _ & Ei & Ep & Eb & Ebi & _ & Et & Ed); [simpl; lia|].
pose proof (@while_loop_fuel F P _ c _ _ _ _ _ Hw Hw2) as Heq.
injection Heq as ->.
rewrite Ei, Ep, Eb, Ebi, Et, Ed. simpl. repeat split; reflexivity.
Qed.

Lemma while_loop_patience_window (p0 : P) (fuel : nat) (st' : loop_state F P) :
  while_loop c fuel (initial_state p0) = Some (Return st') ->
  patience_window st' /\
  (done_looping st' = true -> iteration st' = Some (patience st')).
Proof.
intros Hw. destruct (Z_le_gt_dec 1 (num_train_batches c)) as [Hn|Hn].
- destruct (while_loop_window_end _ _ Hn Hw) as (HI & _ & Hfin).
  split; [exact HI|]. intros Hd.
  destruct Hfin as [[[_ Hi] _] | [(Hd' & _) _]]; [exact Hi | congruence].
- destruct (while_loop_no_batches_end p0 fuel ltac:(lia) Hw)
    as (Ei & Ep & _ & Ebi & _ & Ed).
  split; [|rewrite Ed; discriminate].
  unfold patience_window. rewrite Ei, Ep, Ebi.
  unfold initial_patience. lia.
Qed.

Lemma while_loop_updates (p0 : P) (fuel : nat) (st' : loop_state F P) :
  while_loop c fuel (initial_state p0) = Some (Return st') ->
  updates (trace st') = last_iteration st' + 1 /\
  0 <= updates (trace st') <= Z.max 0 (num_epochs c) * Z.max 0 (num_train_batches c) /\
  (done_looping st' = false ->
   updates (trace st') = Z.max 0 (num_epochs c) * Z.max 0 (num_train_batches c)) /\
  (done_looping st' = true -> initial_patience < updates (trace st')).
Proof.
intros Hw. destruct (Z_le_gt_dec 1 (num_train_batches c)) as [Hn|Hn].
- destruct (while_loop_window_end _ _ Hn Hw)
    as ((_ & Hp) & (T1 & T2 & T3 & T4) & Hfin).
  assert (Hu : updates (trace st') = last_iteration st' + 1).
  { unfold updates. rewrite T2, length_rev, py_range_length. lia. }
  rewrite Hu. split; [reflexivity|].
  destruct Hfin as [[[Hd Hi] He] | [(Hd & Hl & Hlt) [He1 He2]]].
  + assert (Hl : last_iteration st' = patience st')
      by (unfold last_iteration; rewrite Hi; reflexivity).
    split; [|split; [congruence | intros _; lia]].
    split; [lia|].
    rewrite (Z.max_r 0 (num_epochs c)), (Z.max_r 0 (num_train_batches c)) by lia.
    assert (epoch st' * num_train_batches c <= num_epochs c * num_train_batches c)
      by (apply Z.mul_le_mono_nonneg_r; lia).
    lia.
  + split; [|split; [|congruence]].
    * destruct (Z_lt_le_dec 0 (num_epochs c)) as [Hpos|Hneg].
      -- rewrite Hl, (He1 Hpos).
         rewrite (Z.max_r 0 (num_epochs c)), (Z.max_r 0 (num_train_batches c)) by lia.
         lia.
      -- rewrite (He2 Hneg). unfold last_iteration. simpl.
         rewrite (Z.max_l 0 (num_epochs c)) by lia. lia.
    * intros _. destruct (Z_lt_le_dec 0 (num_epochs c)) as [Hpos|Hneg].
      -- rewrite Hl, (He1 Hpos).
         rewrite (Z.max_r 0 (num_epochs c)), (Z.max_r 0 (num_train_batches c)) by lia.
         lia.
      -- rewrite (He2 Hneg). unfold last_iteration. simpl.
         rewrite (Z.max_l 0 (num_epochs c)) by lia. lia.
- destruct (while_loop_no_batches_end p0 fuel ltac:(lia) Hw)
    as (Ei & _ & _ & _ & Et & Ed).
  unfold updates, last_iteration. rewrite Ei, Et, Ed. simpl.
  rewrite (Z.max_l 0 (num_train_batches c)) by lia.
  rewrite Z.mul_0_r.
  split; [reflexivity|]. split; [lia|]. split; [reflexivity | discriminate].
Qed.
End Window.

(** X1. Early stopping has a window.  When the loop ends the patience is at
    least 100 and at most [max(100, 2 * best_iteration)]; the best
    iteration is 0 if no iteration was made, and otherwise lies between 0
    and the last iteration made; and if the loop was stopped by the
    patience test, it was stopped at the iteration equal to the patience:
    never before iteration 100, and never later than twice the best
    iteration, or 100 if that is larger. *)
Theorem early_stopping_window {F P : Type} `{FloatOps F} (c : env F P) (p0 : P)
    (fuel : nat) (st' : loop_state F P) :
  while_loop c fuel (initial_state p0) = Some (Return st') ->
  100 <= patience st' <= Z.max 100 (2 * best_iteration st') /\
  match iteration st' with
  | None => best_iteration st' = 0
  | Some i => 0 <= best_iteration st' <= i
  end /\
  (done_looping st' = true ->
   exists i, iteration st' = Some i /\ i = patience st' /\
             100 <= i <= Z.max 100 (2 * best_iteration st')).
Proof.
intros Hw. destruct (while_loop_patience_window _ _ _ Hw) as ((Hb & Hp) & Hd).
unfold initial_patience in Hp.
split; [exact Hp|]. split; [exact Hb|].
intros Hdone. exists (patience st'). split; [apply Hd; exact Hdone|]. split; [reflexivity|exact Hp].
Qed.

(** X1 on the example back end: one batch per epoch and validation losses
    that never improve stop the loop at iteration 100. *)
Lemma early_stopping_window_witness :
  exists st',
    while_loop (ExtQ.toy_env 1 0 0 1000) 1000 (initial_state 0) = Some (Return st') /\
    100 <= patience st' <= Z.max 100 (2 * best_iteration st') /\
    done_looping st' = true /\ iteration st' = Some 100.
Proof.
eexists. split; [vm_compute; reflexivity|].
split.
- apply (early_stopping_window (ExtQ.toy_env 1 0 0 1000) 0 1000). vm_compute. reflexivity.
- vm_compute. split; reflexivity.
Defined.

(** X2. The number of updates.  When the loop ends, [train_model] has been
    called once for each of the iterations 0, ..., [iteration], and never
    more often than [num_epochs * num_train_batches] (each taken as 0 when
    negative).  A loop that was not stopped by the patience test has made
    exactly that many updates; one that was stopped has made more than 100.
    So a run of at most 100 minibatches in all is never stopped early. *)
Theorem number_of_updates {F P : Type} `{FloatOps F} (c : env F P) (p0 : P)
    (fuel : nat) (st' : loop_state F P) :
  while_loop c fuel (initial_state p0) = Some (Return st') ->
  updates (trace st') = last_iteration st' + 1 /\
  0 <= updates (trace st') <= Z.max 0 (num_epochs c) * Z.max 0 (num_train_batches c) /\
  (done_looping st' = false ->
   updates (trace st') = Z.max 0 (num_epochs c) * Z.max 0 (num_train_batches c)) /\
  (done_looping st' = true -> 100 < updates (trace st')) /\
  (Z.max 0 (num_epochs c) * Z.max 0 (num_train_batches c) <= 100 ->
   done_looping st' = false /\
   updates (trace st') = Z.max 0 (num_epochs c) * Z.max 0 (num_train_batches c)).
Proof.
intros Hw. destruct (while_loop_updates _ _ _ Hw) as (H1 & H2 & H3 & H4).
unfold initial_patience in H4.
split; [exact H1|]. split; [exact H2|]. split; [exact H3|]. split; [exact H4|].
intros Hb.
assert (Hd : done_looping st' = false).
{ destruct (done_looping st') eqn:E; [|reflexivity].
  specialize (H4 eq_refl). lia. }
split; [exact Hd | exact (H3 Hd)].
Qed.

(** X2 on the example back end: 3 epochs of 4 minibatches make 12 updates
    and are not stopped early. *)
Lemma number_of_updates_witness :
  exists st',
    while_loop (ExtQ.toy_env 4 1 1 3) 3 (initial_state 0) = Some (Return st') /\
    updates (trace st') = 12 /\ done_looping st' = false.
Proof.
eexists. split; [vm_compute; reflexivity|].
destruct (@number_of_updates ExtQ.t Z ExtQ.ops (ExtQ.toy_env 4 1 1 3) 0 3 _
            ltac:(vm_compute; reflexivity))
  as (_ & _ & _ & _ & Hb).
destruct (Hb ltac:(vm_compute; discriminate)) as [Hd Hu].
split; [exact Hu | exact Hd].
Defined.

(** ** test_mlp on a file system *)

(** X15. Loading comes first.  A failure in loading the dataset file (in
    fetching, opening or unpickling it) ends [test_mlp] before anything
    else is done, whatever the other arguments.  Once the file is loaded, a
    batch size of 0 makes the call fail with [ZeroDivisionError]; the file
    has been fetched all the same, if it had to be.  And a call that
    returns has loaded the file and returns the losses [test_mlp] computes
    from what the file holds. *)
Theorem test_mlp_file_failures {F P X content : Type} `{FloatOps F}
    (script : string) (network : string -> option content)
    (can_write : Loader.filesystem content -> string -> bool)
    (unpickle : content -> option (pickled X))
    (b : @backend F P X) (fs : Loader.filesystem content) (path : string)
    (a : @arguments F X) :
  (forall e,
     Loader.load script network can_write unpickle fs path (num_examples a) = Loader.Err e ->
     forall fuel, exists fs',
       test_mlp_file script network can_write unpickle b fs path a fuel
       = Some (fs', inl (LoadError e))) /\
  (forall fs' sets,
     Loader.load script network can_write unpickle fs path (num_examples a)
       = Loader.Ok (fs', sets) ->
     batch_size a = 0 ->
     forall fuel,
       test_mlp_file script network can_write unpickle b fs path a fuel
       = Some (fs', inl (PyError ZeroDivisionError))) /\
  (forall fuel fs' r,
     test_mlp_file script network can_write unpickle b fs path a fuel = Some (fs', inr r) ->
     exists data,
       Loader.load script network can_write unpickle fs path (num_examples a)
         = Loader.Ok (fs', load_data data (num_examples a)) /\
       test_mlp b (with_dataset a data) fuel = Some (Return r)).
Proof.
unfold Loader.load, test_mlp_file.
destruct (Loader.fetch script network can_write fs path) as [[[fs1 p1] dl]|e1].
- destruct (Loader.read unpickle fs1 p1) as [data|e2].
  + split; [discriminate|]. split.
    * intros fs' sets Hl Hz fuel. injection Hl as <- _.
      rewrite test_mlp_zero_batch_size by exact Hz. reflexivity.
    * intros fuel fs' r Ht.
      destruct (test_mlp b (with_dataset a data) fuel) as [[r'|e]|] eqn:Er;
        try discriminate.
      injection Ht as <- <-. exists data. split; [reflexivity | exact Er].
  + split; [|split; discriminate]. intros e He fuel. injection He as <-.
    exists fs1. reflexivity.
- split; [|split; discriminate]. intros e He fuel. injection He as <-.
  exists fs. reflexivity.
Qed.

(** X15 on an empty file system, with a batch size of 0: the MNIST file is
    fetched, then the division fails. *)
Lemma test_mlp_file_failures_witness :
  exists fs',
    test_mlp_file "src/BackPropagation.py" (fun _ => Some 7%nat) (fun _ _ => true)
      (fun _ : nat => Some (mkPickled (ExtQ.samples 3 1) (ExtQ.samples 2 1) (ExtQ.samples 2 0)))
      ExtQ.toy (fun _ => None) "mnist.pkl.gz"
      (ExtQ.toy_args (mkPickled ([], []) ([], []) ([], [])) 10 0 2) 10
    = Some (fs', inl (PyError ZeroDivisionError)) /\
    fs' "src/../data/mnist.pkl.gz"%string = Some 7%nat.
Proof.
eexists. split.
- destruct (@test_mlp_file_failures ExtQ.t Z Z nat ExtQ.ops
              "src/BackPropagation.py" (fun _ => Some 7%nat) (fun _ _ => true)
              (fun _ : nat => Some (mkPickled (ExtQ.samples 3 1) (ExtQ.samples 2 1) (ExtQ.samples 2 0)))
              ExtQ.toy (fun _ => None) "mnist.pkl.gz"
              (ExtQ.toy_args (mkPickled ([], []) ([], []) ([], [])) 10 0 2))
    as [_ [Hok _]].
  apply (Hok _ _ ltac:(vm_compute; reflexivity)). reflexivity.
- vm_compute. reflexivity.
Defined.

(** ** Validation once an epoch *)

Section EpochSchedule.
Context {F P : Type} `{FloatOps F}.
Variable c : env F P.


Lemma validation_frequency_large :
  50 <= num_train_batches c -> validation_frequency c = 50.
Proof.
intros Hn. unfold validation_frequency, initial_patience.
change (100 / 2) with 50. lia.
Qed.

End EpochSchedule.



(** ** No epoch allowed *)

(** X4. With [num_epochs <= 0], a call of [test_mlp] that has built its
    model and compiled its functions never enters its [while] loop:
    whatever the data, it makes no update, no validation pass and no test
    pass, leaves the parameters as they were built, and returns
    [(inf, 0.)], the values the best validation loss and the test score
    start with. *)
Theorem no_epoch_no_training {F P X : Type} `{FloatOps F}
    (b : @backend F P X) (a : @arguments F X) (c : env F P) (p0 : P) (fuel : nat) :
  build b a = Return (c, p0) ->
  arg_num_epochs a <= 0 ->
  exists l,
    run b a fuel = Some (Return l) /\
    final l = initial_state p0 /\
    trace (final l) = [] /\
    test_mlp b a fuel = Some (Return (f_inf, f_lit 0)).
Proof.
intros Hb He.
destruct (build_inv _ _ Hb) as (_ & Hc & _).
assert (Hl : loop_condition c (initial_state p0) = false).
{ unfold loop_condition. simpl.
  replace (0 <? num_epochs c) with false; [reflexivity|].
  symmetry. apply Z.ltb_ge. subst c. exact He. }
assert (Hw : while_loop c fuel (initial_state p0) = Some (Return (initial_state p0))).
{ destruct fuel; simpl; rewrite Hl; reflexivity. }
unfold test_mlp, run. rewrite Hb, Hw. eexists. split; [reflexivity|].
simpl. repeat split; reflexivity.
Qed.

(** X4 on the example back end. *)
Lemma no_epoch_no_training_witness :
  test_mlp ExtQ.toy
    (ExtQ.toy_args (mkPickled (ExtQ.samples 8 1) (ExtQ.samples 8 1) (ExtQ.samples 8 1)) 0 2 8)
    0
  = Some (Return (f_inf, f_lit 0)).
Proof.
destruct (@build_returns ExtQ.t Z Z ExtQ.toy
            (ExtQ.toy_args (mkPickled (ExtQ.samples 8 1) (ExtQ.samples 8 1) (ExtQ.samples 8 1))
               0 2 8) 0) as (c & Hb);
  [simpl; discriminate | simpl; discriminate | reflexivity | reflexivity |].
destruct (@no_epoch_no_training ExtQ.t Z Z ExtQ.ops ExtQ.toy _ c 0 0%nat Hb
            ltac:(simpl; discriminate))
  as (l & _ & _ & _ & Ht).
exact Ht.
Defined.

(** ** The test set of the dataset file *)

Section TestSet.
Context {F P X : Type} `{FloatOps F}.
Variable b : @backend F P X.
Variable a : @arguments F X.
Variable test : split X.

Lemma build_with_test_set :
  match build b a, build b (with_test_set a test) with
  | Return (c, p0), Return (c', p0') =>
      p0' = p0 /\
      train_model c' = train_model c /\
      validate_model c' = validate_model c /\
      num_train_batches c' = num_train_batches c /\
      num_valid_batches c' = num_valid_batches c /\
      num_epochs c' = num_epochs c
  | Raise e, Raise e' => e = e'
  | _, _ => False
  end.
Proof.
unfold build, py_floordiv, MLP_init, weight_bound.
cbn [with_test_set batch_size num_hidden learning_rate L1_reg L2_reg].
destruct (batch_size a =? 0); cbn [bind]; [reflexivity|].
destruct (28 * 28 + num_hidden a =? 0); cbn [bind]; [reflexivity|].
destruct (new_MLP b 1234 (28 * 28) (num_hidden a) 10) as [classifier|e];
  cbn [bind]; [|reflexivity].
destruct (compile b (learning_rate a) (L1_reg a) (L2_reg a) (batch_size a) classifier);
  cbn [bind]; [|reflexivity].
repeat split.
Qed.

Lemma run_with_test_set (fuel : nat) :
  match run b a fuel, run b (with_test_set a test) fuel with
  | Some (Return l), Some (Return l') => agree_but_test (final l) (final l')
  | Some (Raise e), Some (Raise e') => e = e'
  | None, None => True
  | _, _ => False
  end.
Proof.
pose proof build_with_test_set as Hb. unfold run.
destruct (build b a) as [[c p0]|e];
  destruct (build b (with_test_set a test)) as [[c' p0']|e'];
  try contradiction; [|exact Hb].
destruct Hb as (Hp & Ht & Hv & Hnt & Hnv & He). subst p0'.
assert (Ha : agree_but_test (initial_state (F := F) p0) (initial_state p0))
  by (repeat split).
pose proof (@while_loop_agree F P _ c c' Ht Hv Hnt Hnv He fuel _ _ Ha) as Hag.
destruct (while_loop c fuel (initial_state p0)) as [[s|e]|];
  destruct (while_loop c' fuel (initial_state p0)) as [[s'|e']|];
  simpl; try exact Hag; try contradiction.
Qed.
End TestSet.

(** X5. The test set of the dataset file has no influence on training or on
    model selection.  Two calls of [test_mlp] whose dataset files differ
    only in the test set fail alike or end their loops in states with the
    same parameters, epoch, iteration, patience, best iteration, updates
    and validation passes; and they return the same best validation
    loss. *)
Theorem test_set_not_used_for_selection {F P X : Type} `{FloatOps F}
    (b : @backend F P X) (a : @arguments F X) (test : split X) (fuel : nat) :
  match run b a fuel, run b (with_test_set a test) fuel with
  | Some (Return l), Some (Return l') => agree_but_test (final l) (final l')
  | Some (Raise e), Some (Raise e') => e = e'
  | None, None => True
  | _, _ => False
  end /\
  match test_mlp b a fuel, test_mlp b (with_test_set a test) fuel with
  | Some (Return r), Some (Return r') => fst r' = fst r
  | Some (Raise e), Some (Raise e') => e = e'
  | None, None => True
  | _, _ => False
  end.
Proof.
pose proof (run_with_test_set b a test fuel) as Hr.
split; [exact Hr|].
unfold test_mlp.
destruct (run b a fuel) as [[l|e]|];
  destruct (run b (with_test_set a test) fuel) as [[l'|e']|];
  try exact Hr; try contradiction.
simpl. destruct Hr as (_ & _ & _ & _ & _ & Hbest & _). exact Hbest.
Qed.

(** ** The best iteration is the first one with the best loss *)

Section EarliestMinimum.
Context {F P : Type} {ops : FloatOps F} {ord : FloatOrder ops}.
Variable c : env F P.

Lemma earliest_minimum_initial (p0 : P) : earliest_minimum (initial_state p0).
Proof.
unfold earliest_minimum, last_iteration. simpl.
split; [lia|]. split; [lia|]. split; [intros j l []|].
left. repeat split.
Qed.

Lemma earliest_minimum_step st i st' k :
  earliest_minimum st ->
  last_iteration st = (epoch st - 1) * num_train_batches c + i - 1 ->
  minibatch_step c st i = Return (st', k) ->
  earliest_minimum st'.
Proof.
intros (H1 & H2 & H3 & H4) Hlast Hs.
pose proof (minibatch_step_spec _ _ _ Hs) as Sp.
pose proof (spec_iteration Sp) as Hit.
pose proof (spec_best Sp) as Hb. pose proof (spec_best_iteration Sp) as Hbi.
pose proof (step_validation_passes _ _ _ Hs) as Hv.
pose proof (step_test_passes _ _ _ Hs) as Ht.
cbv zeta in Hb, Hbi.
set (it := (epoch st - 1) * num_train_batches c + i) in *.
set (this := validation_loss c (params st')) in *.
assert (Hl : last_iteration st' = it) by (unfold last_iteration; rewrite Hit; reflexivity).
unfold earliest_minimum. rewrite Hl, Hb, Hbi, Hv, Ht.
destruct ((it + 1) mod validation_frequency c =? 0); cbn [andb].
- unfold improves. destruct (f_lt this (best_validation_loss st)) eqn:E.
  + split; [lia|]. split; [lia|]. split.
    * intros j l [Hjl | Hin].
      -- injection Hjl as <- <-. split; [lia|]. split; [apply f_lt_irrefl | lia].
      -- destruct (H3 j l Hin) as (Hj & Hnl & _).
         split; [lia|]. split.
         ++ destruct (f_lt l this) eqn:E2; [|reflexivity].
            rewrite (f_lt_trans _ _ _ E2 E) in Hnl. discriminate.
         ++ intros ->. congruence.
    * right. left. reflexivity.
  + split; [lia|]. split; [lia|]. split.
    * intros j l [Hjl | Hin].
      -- injection Hjl as <- <-. split; [lia|]. split; [exact E | lia].
      -- destruct (H3 j l Hin) as (Hj & Hnl & Hm).
         split; [lia|]. split; assumption.
    * destruct H4 as [H4 | H4]; [left; exact H4 | right; right; exact H4].
- split; [lia|]. split; [lia|]. split; [|exact H4].
  intros j l Hin. destruct (H3 j l Hin) as (Hj & Hnl & Hm).
  split; [lia|]. split; assumption.
Qed.

Lemma while_loop_earliest_minimum (p0 : P) (fuel : nat) (st' : loop_state F P) :
  while_loop c fuel (initial_state p0) = Some (Return st') ->
  earliest_minimum st'.
Proof.
intros Hw. destruct (Z_le_gt_dec 1 (num_train_batches c)) as [Hn|Hn].
- assert (He : forall st : loop_state F P,
            earliest_minimum st -> between_epochs c st -> earliest_minimum (next_epoch st))
    by (intros st Hs _; exact Hs).
  assert (Hst : forall st i s' k,
            earliest_minimum st -> done_looping st = false ->
            0 <= i < num_train_batches c ->
            last_iteration st = (epoch st - 1) * num_train_batches c + i - 1 ->
            last_iteration st < patience st ->
            minibatch_step c st i = Return (s', k) -> earliest_minimum s')
    by (intros st i s' k Hs _ _ Hl _ Hm; eapply earliest_minimum_step; eassumption).
  exact (proj1 (@while_loop_end F P _ c (@earliest_minimum F P ops) Hn He Hst p0 fuel st'
                  (earliest_minimum_initial p0) Hw)).
- destruct (while_loop_no_batches_end c p0 fuel ltac:(lia) Hw)
    as (Ei & _ & Eb & Ebi & Et & _).
  unfold earliest_minimum, last_iteration. rewrite Ei, Eb, Ebi, Et. simpl.
  split; [lia|]. split; [lia|]. split; [intros j l []|].
  left. repeat split.
Qed.
End EarliestMinimum.

(** X6. The model selected is the first one with the smallest validation
    loss.  When the loop ends, no validation pass of the run has found a
    loss below the best validation loss; a pass that found the best
    validation loss was made at the best iteration or later; and, unless no
    check has improved on [inf] (then no test pass was made either), the
    pass of the best iteration is one of the passes made and found the best
    validation loss.  The comparison of losses is assumed irreflexive and
    transitive. *)
Theorem best_iteration_is_first_minimum
    {F P : Type} {ops : FloatOps F} {ord : FloatOrder ops} (c : env F P) (p0 : P)
    (fuel : nat) (st' : loop_state F P) :
  while_loop c fuel (initial_state p0) = Some (Return st') ->
  (forall j l,
     In (j, l) (validation_passes (trace st')) ->
     f_lt l (best_validation_loss st') = false /\
     (l = best_validation_loss st' -> best_iteration st' <= j)) /\
  ((best_validation_loss st' = f_inf /\ best_iteration st' = 0 /\
    test_passes (trace st') = [])
   \/ In (best_iteration st', best_validation_loss st') (validation_passes (trace st'))).
Proof.
intros Hw. destruct (while_loop_earliest_minimum _ _ _ Hw) as (_ & _ & H3 & H4).
split; [|exact H4].
intros j l Hin. destruct (H3 j l Hin) as (_ & Hnl & Hm). split; assumption.
Qed.

(** X6 on the example back end: the validation loss falls at every check,
    so the last pass, at iteration 11, is the best. *)
Lemma best_iteration_is_first_minimum_witness :
  exists st',
    while_loop (ExtQ.toy_env 4 1 1 3) 3 (initial_state 0) = Some (Return st') /\
    best_iteration st' = 11 /\
    In (best_iteration st', best_validation_loss st') (validation_passes (trace st')).
Proof.
eexists. split; [vm_compute; reflexivity|]. split; [vm_compute; reflexivity|].
destruct (@best_iteration_is_first_minimum ExtQ.t Z ExtQ.ops ExtQ_order
            (ExtQ.toy_env 4 1 1 3) 0 3 _
            ltac:(vm_compute; reflexivity)) as [_ [(_ & Hbi & _) | Hin]].
- vm_compute in Hbi. discriminate.
- exact Hin.
Defined.

(** ** The training split of load_data *)

Section TrainingSplit.
Variable A : Type.

Lemma slice_to_firstn (n : Z) (l : list A) :
  slice_to n l =
    firstn (Z.to_nat (if 0 <=? n then n else Z.max 0 (Z.of_nat (List.length l) + n))) l.
Proof.
unfold slice_to. destruct (0 <=? n) eqn:E; [reflexivity|].
apply Z.leb_gt in E. f_equal. lia.
Qed.

Lemma slice_to_size (n : Z) (l : list A) :
  Z.of_nat (List.length (slice_to n l)) =
    if 0 <=? n then Z.min n (Z.of_nat (List.length l))
    else Z.max 0 (Z.of_nat (List.length l) + n).
Proof.
rewrite slice_to_firstn, length_firstn.
destruct (0 <=? n) eqn:E; [apply Z.leb_le in E | apply Z.leb_gt in E]; lia.
Qed.

End TrainingSplit.

(** X7. The size of the training split [load_data] returns.  For
    [num_examples >= 0] it holds [min(num_examples, n)] of the [n] training
    samples of the file; a negative [num_examples] is not rejected but, as
    a slice bound, drops that many samples from the end, leaving
    [max(0, n + num_examples)].  The labels are cut in the same way, so
    that a file with as many labels as inputs gives a split with as many
    labels as inputs. *)
Theorem load_data_training_split {X : Type} (data : pickled X) (num_ex : Z) :
  let train := ds_train (load_data data num_ex) in
  let n := Z.of_nat (List.length (fst (train_set data))) in
  let m := Z.of_nat (List.length (snd (train_set data))) in
  shape0 train = (if 0 <=? num_ex then Z.min num_ex n else Z.max 0 (n + num_ex)) /\
  Z.of_nat (List.length (snd train))
    = (if 0 <=? num_ex then Z.min num_ex m else Z.max 0 (m + num_ex)) /\
  (n = m -> List.length (fst train) = List.length (snd train)).
Proof.
unfold load_data. cbn [ds_train].
destruct (train_set data) as [xs ys]. unfold shared_dataset, shape0. cbn [fst snd].
split; [apply slice_to_size|].
split; [apply slice_to_size|].
intros Hlen. apply Nat2Z.inj. rewrite !slice_to_size, Hlen. reflexivity.
Qed.

(** X7 on a file of 8 training samples: [num_examples = -3] keeps 5. *)
Lemma load_data_training_split_witness :
  shape0 (ds_train (load_data
            (mkPickled (ExtQ.samples 8 1) (ExtQ.samples 8 1) (ExtQ.samples 8 1)) (-3))) = 5 /\
  List.length (fst (ds_train (load_data
            (mkPickled (ExtQ.samples 8 1) (ExtQ.samples 8 1) (ExtQ.samples 8 1)) (-3))))
  = List.length (snd (ds_train (load_data
            (mkPickled (ExtQ.samples 8 1) (ExtQ.samples 8 1) (ExtQ.samples 8 1)) (-3)))).
Proof.
destruct (load_data_training_split
            (mkPickled (ExtQ.samples 8 1) (ExtQ.samples 8 1) (ExtQ.samples 8 1)) (-3))
  as (Hs & _ & Hc).
split; [exact Hs|].
exact (Hc eq_refl).
Defined.

(** ** load_data: finding and fetching the dataset file *)

Section LoaderFacts.
Variables X content : Type.
Variable script : string.
Variable network : string -> option content.
Variable can_write : Loader.filesystem content -> string -> bool.
Variable unpickle : content -> option (pickled X).

Lemma resolve_cases (fs : Loader.filesystem content) (dataset : string) :
  Loader.resolve script fs dataset = dataset \/
  (fst (Loader.path_split dataset) = EmptyString /\
   Loader.isfile fs dataset = false /\
   Loader.resolve script fs dataset = (Loader.path_join (fst (Loader.path_split script)) [".."; "data"; dataset]%string) /\
   (Loader.isfile fs (Loader.path_join (fst (Loader.path_split script)) [".."; "data"; dataset]%string) = true \/
    snd (Loader.path_split dataset) = "mnist.pkl.gz"%string)).
Proof.
unfold Loader.resolve.
destruct (Loader.path_split dataset) as [data_dir data_file] eqn:Es. cbn [fst snd].
destruct (String.eqb data_dir "") eqn:Ed; [|left; reflexivity].
destruct (Loader.isfile fs dataset) eqn:Ei; [left; reflexivity|]. cbn [negb andb].
apply String.eqb_eq in Ed.
destruct (Loader.isfile fs (Loader.path_join (fst (Loader.path_split script)) [".."; "data"; dataset]%string)) eqn:En; cbn [orb].
- right. repeat split; auto.
- destruct (String.eqb data_file "mnist.pkl.gz") eqn:Em; [|left; reflexivity].
  apply String.eqb_eq in Em. right. repeat split; auto.
Qed.

Lemma resolve_given (fs : Loader.filesystem content) (dataset : string) :
  Loader.isfile fs dataset = true \/ fst (Loader.path_split dataset) <> EmptyString ->
  Loader.resolve script fs dataset = dataset.
Proof.
intros Hg. destruct (resolve_cases fs dataset) as [Hr | (Hd & Hi & _)]; [exact Hr|].
destruct Hg as [Hg | Hg]; congruence.
Qed.

Lemma resolve_other_name (fs : Loader.filesystem content) (dataset : string) :
  snd (Loader.path_split dataset) <> "mnist.pkl.gz"%string ->
  Loader.isfile fs (Loader.path_join (fst (Loader.path_split script)) [".."; "data"; dataset]%string) = false ->
  Loader.resolve script fs dataset = dataset.
Proof.
intros Hm Hn. destruct (resolve_cases fs dataset) as [Hr | (_ & _ & _ & [H1 | H1])];
  [exact Hr | congruence | contradiction].
Qed.



Lemma fetch_present (fs : Loader.filesystem content) (dataset : string) :
  Loader.isfile fs (Loader.resolve script fs dataset) = true ->
  Loader.fetch script network can_write fs dataset
  = Loader.Ok (fs, Loader.resolve script fs dataset, []).
Proof. intros Hi. unfold Loader.fetch. rewrite Hi. reflexivity. Qed.

Lemma fetch_other_name (fs : Loader.filesystem content) (dataset : string) :
  snd (Loader.path_split dataset) <> "mnist.pkl.gz"%string ->
  Loader.fetch script network can_write fs dataset
  = Loader.Ok (fs, Loader.resolve script fs dataset, []).
Proof.
intros Hm. unfold Loader.fetch.
apply String.eqb_neq in Hm. rewrite Hm, Bool.andb_false_r. reflexivity.
Qed.

End LoaderFacts.

(** X8. A dataset file that exists under the name given, or a name with a
    directory part, is used as given: [load_data] does not look for it in
    the data directory.  A file that exists under the name given is opened
    without any download, the file system is left as it is, and the splits
    are those of [shared_dataset] on what the file holds. *)
Theorem dataset_path_used_as_given (X content : Type) (script : string)
    (network : string -> option content)
    (can_write : Loader.filesystem content -> string -> bool)
    (unpickle : content -> option (pickled X))
    (fs : Loader.filesystem content) (dataset : string) (num_ex : Z) :
  Loader.isfile fs dataset = true \/ fst (Loader.path_split dataset) <> EmptyString ->
  Loader.resolve script fs dataset = dataset /\
  (Loader.isfile fs dataset = true ->
   Loader.fetch script network can_write fs dataset = Loader.Ok (fs, dataset, []) /\
   Loader.load script network can_write unpickle fs dataset num_ex =
     match Loader.read unpickle fs dataset with
     | Loader.Ok data => Loader.Ok (fs, load_data data num_ex)
     | Loader.Err e => Loader.Err e
     end).
Proof.
intros Hg. pose proof (resolve_given script fs dataset Hg) as Hr.
split; [exact Hr|]. intros Hi.
assert (Hf : Loader.fetch script network can_write fs dataset = Loader.Ok (fs, dataset, [])).
{ rewrite fetch_present; rewrite Hr; [reflexivity | exact Hi]. }
split; [exact Hf|].
unfold Loader.load. rewrite Hf. reflexivity.
Qed.

(** X8 for a file in a directory of its own. *)
Lemma dataset_path_used_as_given_witness :
  Loader.resolve "src/BackPropagation.py"
    (fun p => if String.eqb p "data/mnist.pkl.gz" then Some 7%nat else None)
    "data/mnist.pkl.gz" = "data/mnist.pkl.gz"%string.
Proof.
apply (@dataset_path_used_as_given Z nat "src/BackPropagation.py"
         (fun _ => None) (fun _ _ => true) (fun _ => None)
         (fun p => if String.eqb p "data/mnist.pkl.gz" then Some 7%nat else None)
         "data/mnist.pkl.gz" 10).
left. vm_compute. reflexivity.
Defined.



(** X10. A file name other than [mnist.pkl.gz] is never downloaded; and
    when no file of that name exists, neither under the name given nor in
    the data directory, [load_data] fails on opening the file under the
    name given, and the file system is left as it is. *)
Theorem other_names_are_not_downloaded (X content : Type) (script : string)
    (network : string -> option content)
    (can_write : Loader.filesystem content -> string -> bool)
    (unpickle : content -> option (pickled X))
    (fs : Loader.filesystem content) (dataset : string) (num_ex : Z) :
  snd (Loader.path_split dataset) <> "mnist.pkl.gz"%string ->
  Loader.fetch script network can_write fs dataset
    = Loader.Ok (fs, Loader.resolve script fs dataset, []) /\
  (Loader.isfile fs dataset = false ->
   Loader.isfile fs
     (Loader.path_join (fst (Loader.path_split script)) [".."; "data"; dataset]%string)
     = false ->
   Loader.resolve script fs dataset = dataset /\
   Loader.load script network can_write unpickle fs dataset num_ex
     = Loader.Err (Loader.IOError dataset)).
Proof.
intros Hm. pose proof (fetch_other_name script network can_write fs dataset Hm) as Hf.
split; [exact Hf|]. intros Hi Hn.
pose proof (resolve_other_name script fs dataset Hm Hn) as Hr.
split; [exact Hr|].
unfold Loader.load. rewrite Hf, Hr. unfold Loader.read.
unfold Loader.isfile in Hi. destruct (fs dataset); [discriminate | reflexivity].
Qed.

(** X10 on an empty file system. *)
Lemma other_names_are_not_downloaded_witness :
  Loader.load "src/BackPropagation.py" (fun _ => Some 7%nat) (fun _ _ => true)
    (fun _ : nat => @None (pickled Z)) (fun _ => None) "cifar.pkl.gz" 10
  = Loader.Err (Loader.IOError "cifar.pkl.gz").
Proof.
destruct (@other_names_are_not_downloaded Z nat "src/BackPropagation.py"
            (fun _ => Some 7%nat) (fun _ _ => true) (fun _ => None) (fun _ => None)
            "cifar.pkl.gz" 10 ltac:(vm_compute; discriminate)) as [_ Hl].
destruct (Hl ltac:(vm_compute; reflexivity) ltac:(vm_compute; reflexivity)) as [_ He].
exact He.
Defined.



(** ** Path names *)

Section PathFacts.
Local Open Scope string_scope.

Lemma append_assoc_string (a b c : string) : (a ++ b) ++ c = a ++ (b ++ c).
Proof. induction a as [|ch a IH]; simpl; [reflexivity | now rewrite IH]. Qed.

Lemma append_nonempty (s t : string) : t <> "" -> s ++ t <> "".
Proof. destruct s; simpl; [auto | discriminate]. Qed.

Lemma ends_with_slash_app (s t : string) :
  t <> "" -> Loader.ends_with_slash (s ++ t) = Loader.ends_with_slash t.
Proof.
intros Ht. induction s as [|ch s IH]; [reflexivity|].
simpl. destruct (s ++ t) eqn:E; [|exact IH].
exfalso. exact (append_nonempty s Ht E).
Qed.

Lemma cut_bare (d : string) : fst (Loader.cut d) = "" -> Loader.cut d = ("", d).
Proof.
induction d as [|ch d IH]; [reflexivity|]. simpl.
destruct (Loader.cut d) as [head tail]. destruct head as [|c h].
- specialize (IH eq_refl). injection IH as ->.
  destruct (Ascii.eqb ch "/"); [discriminate | reflexivity].
- discriminate.
Qed.

Lemma cut_app_slash (p d : string) :
  fst (Loader.cut d) = "" -> Loader.cut (p ++ String "/" d) = (p ++ "/", d).
Proof.
intros Hd. induction p as [|ch p IH].
- simpl. rewrite (cut_bare d Hd). reflexivity.
- simpl. rewrite IH. destruct (p ++ "/") eqn:E; [|reflexivity].
  exfalso. apply (@append_nonempty p "/"); [discriminate | exact E].
Qed.

Lemma rstrip_slashes_empty (s : string) :
  Loader.rstrip_slashes s = "" -> Loader.all_slashes s = true.
Proof.
induction s as [|ch s IH]; [reflexivity|]. simpl.
destruct (Loader.rstrip_slashes s); [|discriminate].
destruct (Ascii.eqb ch "/"); [intros _; apply IH; reflexivity | discriminate].
Qed.

Lemma path_split_bare (d : string) :
  fst (Loader.path_split d) = "" -> fst (Loader.cut d) = "".
Proof.
unfold Loader.path_split. destruct (Loader.cut d) as [head tail]. cbn [fst].
destruct head as [|c h]; [reflexivity|].
change (String.eqb (String c h) "") with false. cbn [negb andb].
destruct (Loader.all_slashes (String c h)) eqn:E; cbn [negb]; [discriminate|].
intros Hr. apply rstrip_slashes_empty in Hr. congruence.
Qed.

Lemma starts_with_slash_bare (d : string) :
  fst (Loader.cut d) = "" -> Loader.starts_with_slash d = false.
Proof.
destruct d as [|ch d]; [reflexivity|]. simpl.
destruct (Loader.cut d) as [head tail]. destruct head.
- destruct (Ascii.eqb ch "/"); [discriminate | reflexivity].
- discriminate.
Qed.

Lemma all_slashes_ends (s : string) :
  Loader.all_slashes s = true -> s <> "" -> Loader.ends_with_slash s = true.
Proof.
induction s as [|ch s IH]; [congruence|]. simpl.
intros Ha _. apply andb_prop in Ha. destruct Ha as [Hc Hs].
destruct s as [|c s']; [exact Hc|]. apply IH; [exact Hs | discriminate].
Qed.

Lemma all_slashes_app (s t : string) :
  Loader.all_slashes (s ++ t) = Loader.all_slashes s && Loader.all_slashes t.
Proof.
induction s as [|ch s IH]; [reflexivity|]. simpl. rewrite IH.
now rewrite Bool.andb_assoc.
Qed.

Lemma rstrip_slashes_app (p : string) :
  p <> "" -> Loader.ends_with_slash p = false ->
  Loader.rstrip_slashes (p ++ "/") = p.
Proof.
induction p as [|ch p IH]; [congruence|]. intros _ He.
destruct p as [|c p'].
- simpl in *. rewrite He. reflexivity.
- change (Loader.ends_with_slash (String ch (String c p')))
    with (Loader.ends_with_slash (String c p')) in He.
  change (Loader.rstrip_slashes (String ch (String c p') ++ "/"))
    with (match Loader.rstrip_slashes (String c p' ++ "/") with
          | "" => if Ascii.eqb ch "/" then "" else String ch ""
          | String c0 r => String ch (String c0 r)
          end).
  rewrite IH by (try discriminate; exact He). reflexivity.
Qed.

Lemma path_split_app_slash (p d : string) :
  p <> "" -> Loader.ends_with_slash p = false -> fst (Loader.cut d) = "" ->
  Loader.path_split (p ++ String "/" d) = (p, d).
Proof.
intros Hp He Hd. unfold Loader.path_split. rewrite cut_app_slash by exact Hd.
assert (Hne : String.eqb (p ++ "/") "" = false).
{ apply String.eqb_neq. apply append_nonempty. discriminate. }
assert (Hall : Loader.all_slashes (p ++ "/") = false).
{ rewrite all_slashes_app. destruct (Loader.all_slashes p) eqn:E; [|reflexivity].
  rewrite (all_slashes_ends E Hp) in He. discriminate. }
rewrite Hne, Hall. cbn [negb andb]. rewrite rstrip_slashes_app by assumption.
reflexivity.
Qed.

Lemma join_step_dotdot (d0 : string) :
  Loader.join_step d0 ".." <> "" /\
  Loader.ends_with_slash (Loader.join_step d0 "..") = false.
Proof.
unfold Loader.join_step.
change (Loader.starts_with_slash "..") with false. cbv iota.
destruct (String.eqb d0 "" || Loader.ends_with_slash d0).
- split; [apply append_nonempty; discriminate|].
  rewrite ends_with_slash_app by discriminate. reflexivity.
- split; [apply append_nonempty; discriminate|].
  change (d0 ++ "/" ++ "..") with (d0 ++ "/..").
  rewrite ends_with_slash_app by discriminate. reflexivity.
Qed.

Lemma path_join_data (d0 dataset : string) :
  fst (Loader.cut dataset) = "" ->
  Loader.path_join d0 [".."; "data"; dataset]
  = (Loader.join_step d0 ".." ++ "/data") ++ String "/" dataset.
Proof.
intros Hd. unfold Loader.path_join. cbn [fold_left].
destruct (join_step_dotdot d0) as [Hne He].
set (dir := Loader.join_step d0 "..") in *.
assert (H1 : Loader.join_step dir "data" = dir ++ "/data").
{ unfold Loader.join_step.
  change (Loader.starts_with_slash "data") with false. cbv iota.
  apply String.eqb_neq in Hne. rewrite Hne, He. reflexivity. }
rewrite H1. unfold Loader.join_step.
rewrite (starts_with_slash_bare dataset Hd).
assert (H2 : String.eqb (dir ++ "/data") "" = false)
  by (apply String.eqb_neq; apply append_nonempty; discriminate).
assert (H3 : Loader.ends_with_slash (dir ++ "/data") = false)
  by (rewrite ends_with_slash_app by discriminate; reflexivity).
rewrite H2, H3. reflexivity.
Qed.
End PathFacts.

(** X12. When [load_data] does not use [dataset] as given, the path name
    it settles on is [dataset] in the directory [../data] taken from the
    directory of the script: its directory part is that directory and its
    file name is [dataset].  So in every case the path name settled on has
    the file name of [dataset], the one the test for [mnist.pkl.gz] looks
    at. *)
Theorem data_directory_path (content : Type) (script : string)
    (fs : Loader.filesystem content) (dataset : string) :
  let dir := Loader.join_step (fst (Loader.path_split script)) ".." in
  (Loader.resolve script fs dataset <> dataset ->
   fst (Loader.path_split dataset) = EmptyString /\
   Loader.isfile fs dataset = false /\
   Loader.resolve script fs dataset = ((dir ++ "/data") ++ String "/" dataset)%string /\
   Loader.path_split (Loader.resolve script fs dataset) = ((dir ++ "/data")%string, dataset)) /\
  snd (Loader.path_split (Loader.resolve script fs dataset))
  = snd (Loader.path_split dataset).
Proof.
intros dir.
assert (Hmain : Loader.resolve script fs dataset <> dataset ->
   fst (Loader.path_split dataset) = EmptyString /\
   Loader.isfile fs dataset = false /\
   Loader.resolve script fs dataset = ((dir ++ "/data") ++ String "/" dataset)%string /\
   Loader.path_split (Loader.resolve script fs dataset) = ((dir ++ "/data")%string, dataset)).
{ intros Hne.
  destruct (resolve_cases script fs dataset) as [Hr | (Hd & Hi & Hr & _)]; [contradiction|].
  pose proof (path_split_bare dataset Hd) as Hb.
  split; [exact Hd|]. split; [exact Hi|].
  rewrite Hr, (path_join_data _ dataset Hb). split; [reflexivity|].
  apply path_split_app_slash; [| |exact Hb].
  - apply append_nonempty. discriminate.
  - rewrite ends_with_slash_app by discriminate. reflexivity. }
split; [exact Hmain|].
destruct (string_dec (Loader.resolve script fs dataset) dataset) as [He|Hne].
- rewrite He. reflexivity.
- destruct (Hmain Hne) as (Hd & _ & _ & Hs). rewrite Hs. cbn [snd].
  pose proof (path_split_bare dataset Hd) as Hb.
  unfold Loader.path_split. rewrite (cut_bare dataset Hb). reflexivity.
Qed.

(** X12 on an empty file system, for the script [src/BackPropagation.py]:
    the MNIST file is looked for, and fetched, in [src/../data]. *)
Lemma data_directory_path_witness :
  Loader.path_split
    (Loader.resolve "src/BackPropagation.py" (fun _ => @None nat) "mnist.pkl.gz")
  = ("src/../data"%string, "mnist.pkl.gz"%string).
Proof.
destruct (@data_directory_path nat "src/BackPropagation.py" (fun _ => None) "mnist.pkl.gz")
  as [Hd _].
destruct (Hd ltac:(vm_compute; discriminate)) as (_ & _ & _ & Hs).
exact Hs.
Defined.

(** ** The sweeps of the script *)

Section MainFacts.
Context {F P X : Type} `{FloatOps F}.
Variable b : @backend F P X.






End MainFacts.



Section SweepRuns.
Context {F P X : Type} `{FloatOps F}.
Variable b : @backend F P X.

Lemma run_inv (a : @arguments F X) (fuel : nat) (l : @locals F P) :
  run b a fuel = Some (Return l) ->
  exists c p0,
    build b a = Return (c, p0) /\
    while_loop c fuel (initial_state p0) = Some (Return (final l)).
Proof.
unfold run. destruct (build b a) as [[c p0]|e] eqn:Hb; [|discriminate].
destruct (while_loop c fuel (initial_state p0)) as [[st|e]|] eqn:Hw; try discriminate.
intros Hr. injection Hr as <-. exists c, p0. split; [reflexivity | exact Hw].
Qed.
End SweepRuns.

(** X14. The training done by a run of the sweep over the numbers of
    examples.  A call [test_mlp(num_epochs = 10, num_hidden = 100,
    num_examples = example)] with [example >= 0], on a file of [n] training
    samples, trains on [min(example, n) // 20] batches an epoch and makes
    at most 10 times as many updates; exactly as many unless the patience
    test stops it.  With at most 219 examples it is never stopped: it runs
    its 10 epochs in full. *)
Theorem example_run_updates {F P X : Type} `{FloatOps F}
    (b : @backend F P X) (data : pickled X) (example : Z) (fuel : nat)
    (l : @locals F P) :
  0 <= example ->
  run b (example_arguments data example) fuel = Some (Return l) ->
  let n := Z.of_nat (List.length (fst (train_set data))) in
  let batches := Z.min example n / 20 in
  0 <= updates (trace (final l)) <= 10 * batches /\
  (done_looping (final l) = false -> updates (trace (final l)) = 10 * batches) /\
  (example <= 219 ->
   done_looping (final l) = false /\ updates (trace (final l)) = 10 * batches).
Proof.
intros He Hr n batches.
destruct (run_inv b _ _ Hr) as (c & p0 & Hb & Hw).
destruct (build_inv _ _ Hb) as (_ & Hc & _).
assert (Hn : num_train_batches c = batches).
{ subst c. cbn [num_train_batches example_arguments default_arguments
                num_examples batch_size dataset].
  unfold load_data. cbn [ds_train]. destruct (train_set data) as [xs ys] eqn:Et.
  unfold shared_dataset, shape0. cbn [fst].
  rewrite slice_to_size. destruct (0 <=? example) eqn:E; [|apply Z.leb_gt in E; lia].
  subst batches n. cbn [fst]. reflexivity. }
assert (Hep : num_epochs c = 10) by (subst c; reflexivity).
assert (Hb0 : 0 <= batches).
{ subst batches. apply Z.div_pos; lia. }
destruct (while_loop_updates _ _ _ Hw) as (_ & H2 & H3 & H4).
rewrite Hn, Hep in H2, H3.
rewrite (Z.max_r 0 10), (Z.max_r 0 batches) in H2, H3 by lia.
split; [exact H2|]. split; [exact H3|].
intros Hsmall.
assert (Hle : batches <= 10).
{ subst batches. apply Z.lt_succ_r. apply Z.div_lt_upper_bound; lia. }
assert (Hd : done_looping (final l) = false).
{ destruct (done_looping (final l)) eqn:E; [|reflexivity].
  specialize (H4 eq_refl). unfold initial_patience in H4. lia. }
split; [exact Hd | exact (H3 Hd)].
Qed.

(** X14 on the example back end: 100 of 120 training samples make 5
    batches an epoch and 50 updates. *)
Lemma example_run_updates_witness :
  exists l,
    run ExtQ.toy
      (example_arguments
         (mkPickled (ExtQ.samples 120 1) (ExtQ.samples 20 1) (ExtQ.samples 20 0)) 100) 10
    = Some (Return l) /\
    updates (trace (final l)) = 50.
Proof.
eexists. split; [vm_compute; reflexivity|].
destruct (@example_run_updates ExtQ.t Z Z ExtQ.ops ExtQ.toy
            (mkPickled (ExtQ.samples 120 1) (ExtQ.samples 20 1) (ExtQ.samples 20 0))
            100 10 _ ltac:(vm_compute; discriminate) ltac:(vm_compute; reflexivity))
  as (_ & _ & Hs).
destruct (Hs ltac:(vm_compute; discriminate)) as [_ Hu].
rewrite Hu. vm_compute. reflexivity.
Defined.
